(** * MoviesAPI: a shallow embedding of [Consumir API/MoviesAPI.py]

    The program asks for a title, queries the TMDB search endpoint through
    [requests], turns the decoded JSON payload into [Movie] records and
    prints one line per record.

    Python values are dynamically typed, so the payload and the fields of a
    [Movie] are modelled by the tagged union [pyval]; exceptions are values
    of [exn] returned through [result]; console and network effects are
    recorded in a trace of [event]s threaded by the monad [IO].

    A Python [str] is modelled by [string], each character standing for a
    code point below 256.

    [run] and [main] take every [print] to succeed; [run_to] and [main_to]
    are the same code on a [console] whose writes and final flush can
    fail, and agree with them when nothing does ([run_to_accepted]). *)

From Stdlib Require Import ZArith String Ascii List Floats Lia DecimalString.
From stdpp Require Import gmap strings.
Import ListNotations.

Local Open Scope string_scope.
Local Open Scope Z_scope.

(** ** Strings *)

Module PyString.

(** The line feed produced by the escape [\n] of a Python literal. *)
Definition nl : string := String (ascii_of_nat 10) "".

(** [str.isspace] on one character: the code points below 256 that
    CPython classifies as whitespace (TAB..CR, FS..US, SPACE, NEL, NBSP). *)
Definition isspace (c : ascii) : bool :=
  let n := Z.of_nat (nat_of_ascii c) in
  ((9 <=? n) && (n <=? 13)) || ((28 <=? n) && (n <=? 32))
  || (n =? 133) || (n =? 160).

Fixpoint lstrip (s : string) : string :=
  match s with
  | String c s' => if isspace c then lstrip s' else s
  | EmptyString => EmptyString
  end.

(** Removes trailing whitespace: a character is kept when something is
    kept after it or when it is not whitespace. *)
Fixpoint rstrip (s : string) : string :=
  match s with
  | String c s' =>
      match rstrip s' with
      | EmptyString => if isspace c then EmptyString else String c EmptyString
      | r => String c r
      end
  | EmptyString => EmptyString
  end.

(** [s.strip()] *)
Definition strip (s : string) : string := rstrip (lstrip s).

(** [s.split(sep)] for a separator of one character: the pieces between
    the occurrences of [sep]; never empty. *)
Fixpoint split (sep : ascii) (s : string) : list string :=
  match s with
  | EmptyString => [EmptyString]
  | String c s' =>
      if Ascii.eqb c sep then EmptyString :: split sep s'
      else match split sep s' with
           | p :: ps => String c p :: ps
           | [] => [String c EmptyString]
           end
  end.

Fixpoint all_chars (p : ascii -> bool) (s : string) : bool :=
  match s with
  | EmptyString => true
  | String c s' => p c && all_chars p s'
  end.

Fixpoint replicate (n : nat) (c : ascii) : string :=
  match n with
  | O => EmptyString
  | S n' => String c (replicate n' c)
  end.

(** Right-aligns [s] in a field of [width] characters filled with [c]. *)
Definition rjust (width : nat) (c : ascii) (s : string) : string :=
  replicate (width - String.length s) c ++ s.

Fixpoint join (sep : string) (l : list string) : string :=
  match l with
  | [] => EmptyString
  | [x] => x
  | x :: l' => x ++ sep ++ join sep l'
  end.

(** [str(n)] for an [int]. *)
Definition of_Z (n : Z) : string := NilZero.string_of_int (Z.to_int n).

(** [str.lower] on the two strings [str(bool)] can be. *)
Definition lower_bool (b : bool) : string := if b then "true" else "false".

End PyString.

(** ** Formatting of floats: the [.Nf] format specification *)

Module PyFormat.

(** [a / b] rounded to the nearest integer, ties to even ([0 <= a], [0 < b]). *)
Definition round_half_even_div (a b : Z) : Z :=
  let q := a / b in
  match 2 * (a mod b) ?= b with
  | Lt => q
  | Gt => q + 1
  | Eq => if Z.even q then q else q + 1
  end.

(** The integer nearest to [m * 2^e * 10^d]. *)
Definition scaled (d : nat) (m : positive) (e : Z) : Z :=
  let a := Zpos m * 10 ^ Z.of_nat d in
  if 0 <=? e then a * 2 ^ e else round_half_even_div a (2 ^ (- e)).

(** The digits of [n / 10^d] with [d] decimals, no point when [d = 0]. *)
Definition fixed_digits (d : nat) (n : Z) : string :=
  let p := 10 ^ Z.of_nat d in
  PyString.of_Z (n / p) ++
  match d with
  | O => ""
  | _ => "." ++ PyString.rjust d "0" (PyString.of_Z (n mod p))
  end.

Definition sign_str (s : bool) : string := if s then "-" else "".

(** [format(f, ".{d}f")]: the exact binary value of [f] rounded half to
    even at [d] decimals, as CPython's correctly rounded conversion does. *)
Definition fixed (d : nat) (f : float) : string :=
  match Prim2SF f with
  | S754_nan => "nan"
  | S754_infinity s => sign_str s ++ "inf"
  | S754_zero s => sign_str s ++ fixed_digits d 0
  | S754_finite s m e => sign_str s ++ fixed_digits d (scaled d m e)
  end.

(** [format(i, "{w}d")] for a non-negative [i]. *)
Definition decimal_width (w : nat) (i : nat) : string :=
  PyString.rjust w " " (PyString.of_Z (Z.of_nat i)).

End PyFormat.


(** ** Python values, exceptions and results *)

#[local] Set Warnings "-register-all".

(** What [json] decoding produces, which is also all the program handles. *)
Inductive pyval : Type :=
| PyNone
| PyBool (b : bool)
| PyInt (n : Z)
| PyFloat (f : float)
| PyStr (s : string)
| PyList (items : list pyval)
| PyDict (entries : list (string * pyval)).   (* keys distinct, in insertion order *)

(** The exception classes the program can meet. [KeyboardInterrupt] derives
    from [BaseException] only; [HTTPError], [ConnectionError], [Timeout] and
    [JSONDecodeError] are those of [requests]; [OSError] is what a write to
    a broken pipe or a full device raises. *)
Inductive exn_class : Type :=
| KeyboardInterrupt
| RuntimeError
| TypeError
| AttributeError
| ValueError
| OverflowError
| EOFError
| HTTPError
| ConnectionError
| Timeout
| JSONDecodeError
| OSError.

(** [issubclass(c, Exception)] *)
Definition is_Exception (c : exn_class) : bool :=
  match c with KeyboardInterrupt => false | _ => true end.

(** [issubclass(c, requests.HTTPError)] *)
Definition is_HTTPError (c : exn_class) : bool :=
  match c with HTTPError => true | _ => false end.

(** A [requests.Response] as far as the program looks at it; [json_value]
    is what [resp.json()] decodes from [content], [None] when the content
    is not JSON, in which case [json_error] is the decoder's message. *)
Record response : Type := {
  status_code : Z;
  reason : string;
  url : string;
  content : string;
  json_value : option pyval;
  json_error : string;
}.

(** An exception object: its class, [str(e)], and the response attached to
    an [HTTPError]. *)
Record exn : Type := {
  exn_class_of : exn_class;
  exn_str : string;
  exn_response : option response;
}.

Definition mk_exn (c : exn_class) (msg : string) : exn :=
  {| exn_class_of := c; exn_str := msg; exn_response := None |}.

Inductive result (A : Type) : Type :=
| Ok (a : A)
| Raise (e : exn).
Arguments Ok {A} a.
Arguments Raise {A} e.

Definition is_ok {A} (r : result A) : bool :=
  match r with Ok _ => true | Raise _ => false end.

Definition rbind {A B} (r : result A) (k : A -> result B) : result B :=
  match r with
  | Ok a => k a
  | Raise e => Raise e
  end.

Declare Scope result_scope.
Delimit Scope result_scope with result.
Notation "'let*' x := r 'in' k" := (rbind r (fun x => k))
  (at level 10, x name, r at level 100, k at level 200) : result_scope.

(** ** Builtins *)

(** The parts of the Python runtime that the program reaches only on
    unusual data and whose exact output no property here depends on:
    parsing a [str] as a float, and [repr] of floats and strings. *)
Class PyLib : Type := {
  float_of_str : string -> option float;
  repr_float : float -> string;
  repr_str : string -> string;
}.

Section Builtins.
Context {L : PyLib}.

(** [type(v).__name__] *)
Definition type_name (v : pyval) : string :=
  match v with
  | PyNone => "NoneType"
  | PyBool _ => "bool"
  | PyInt _ => "int"
  | PyFloat _ => "float"
  | PyStr _ => "str"
  | PyList _ => "list"
  | PyDict _ => "dict"
  end.

(** [bool(v)] *)
Definition truthy (v : pyval) : bool :=
  match v with
  | PyNone => false
  | PyBool b => b
  | PyInt n => negb (n =? 0)
  | PyFloat f => negb (PrimFloat.eqb f 0%float)
  | PyStr s => negb (String.eqb s "")
  | PyList l => match l with [] => false | _ => true end
  | PyDict d => match d with [] => false | _ => true end
  end.

(** The value bound to [k] in the entries of a dict. *)
Fixpoint dict_lookup (k : string) (d : list (string * pyval)) : option pyval :=
  match d with
  | [] => None
  | (k', v) :: d' => if String.eqb k k' then Some v else dict_lookup k d'
  end.

Definition no_attribute (v : pyval) (attr : string) : exn :=
  mk_exn AttributeError
    ("'" ++ type_name v ++ "' object has no attribute '" ++ attr ++ "'").

(** [dict.get(d, k, default)] *)
Definition dict_get (d : list (string * pyval)) (k : string) (default : pyval)
    : pyval :=
  match dict_lookup k d with
  | Some x => x
  | None => default
  end.

(** [v.get(k, default)]: only a dict has the method. *)
Definition py_get (v : pyval) (k : string) (default : pyval) : result pyval :=
  match v with
  | PyDict d => Ok (dict_get d k default)
  | _ => Raise (no_attribute v "get")
  end.

Fixpoint chars (s : string) : list pyval :=
  match s with
  | EmptyString => []
  | String c s' => PyStr (String c EmptyString) :: chars s'
  end.

(** What [for item in v] iterates over: the items of a list, the keys of a
    dict, the characters of a str; the other types are not iterable. *)
Definition py_iter (v : pyval) : result (list pyval) :=
  match v with
  | PyList l => Ok l
  | PyDict d => Ok (map (fun kv => PyStr (fst kv)) d)
  | PyStr s => Ok (chars s)
  | _ => Raise (mk_exn TypeError ("'" ++ type_name v ++ "' object is not iterable"))
  end.

(** [float(n)] for an [int]: the nearest double, ties to even. *)
Definition float_of_Z (n : Z) : float :=
  SF2Prim (binary_normalize prec emax n 0 false).

Definition is_infinite (f : float) : bool :=
  match Prim2SF f with S754_infinity _ => true | _ => false end.

(** [float(v)] *)
Definition py_float (v : pyval) : result float :=
  match v with
  | PyFloat f => Ok f
  | PyInt n =>
      let f := float_of_Z n in
      if is_infinite f
      then Raise (mk_exn OverflowError "int too large to convert to float")
      else Ok f
  | PyBool b => Ok (if b then 1%float else 0%float)
  | PyStr s =>
      match float_of_str s with
      | Some f => Ok f
      | None => Raise (mk_exn ValueError
                        ("could not convert string to float: " ++ repr_str s))
      end
  | _ => Raise (mk_exn TypeError
                 ("float() argument must be a string or a real number, not '"
                  ++ type_name v ++ "'"))
  end.

(** [repr(v)] *)
Fixpoint py_repr (v : pyval) : string :=
  match v with
  | PyNone => "None"
  | PyBool b => if b then "True" else "False"
  | PyInt n => PyString.of_Z n
  | PyFloat f => repr_float f
  | PyStr s => repr_str s
  | PyList l => "[" ++ PyString.join ", " (map py_repr l) ++ "]"
  | PyDict d =>
      "{" ++ PyString.join ", "
               (map (fun kv => repr_str (fst kv) ++ ": " ++ py_repr (snd kv)) d)
      ++ "}"
  end.

(** [str(v)], which is also [format(v, "")] inside an f-string. *)
Definition py_str (v : pyval) : string :=
  match v with
  | PyStr s => s
  | _ => py_repr v
  end.

End Builtins.

(** ** The world, and the effects of a run *)

(** The arguments of [Session.get]. *)
Record request : Type := {
  req_url : string;
  req_params : list (string * pyval);
  req_headers : list (string * string);
  req_timeout : Z;
}.

(** Everything outside the program that a run depends on. *)
Record world : Type := {
  (** [os.environ] when the process starts *)
  os_environ : gmap string string;
  (** the bindings of the [.env] file, empty when there is none *)
  dotenv_file : gmap string string;
  (** what [input] does: the line typed, or the exception it raises *)
  stdin : result string;
  (** what [Session.get] does with a request *)
  http : request -> result response;
}.

(** What a run does to the outside, in order. *)
Inductive event : Type :=
| Prompt (text : string)      (* the prompt written by [input] *)
| Print (line : string)       (* one call of [print] *)
| HttpGet (req : request).    (* one request sent *)

Definition trace : Type := list event.

(** Computations that extend the trace and return or raise. *)
Definition IO (A : Type) : Type := trace -> result A * trace.

Definition ret {A} (a : A) : IO A := fun t => (Ok a, t).
Definition raise {A} (e : exn) : IO A := fun t => (Raise e, t).
Definition lift {A} (r : result A) : IO A := fun t => (r, t).
Definition emit (ev : event) : IO unit := fun t => (Ok tt, (t ++ [ev])%list).

Definition bind {A B} (m : IO A) (k : A -> IO B) : IO B :=
  fun t =>
    match m t with
    | (Ok a, t') => k a t'
    | (Raise e, t') => (Raise e, t')
    end.

(** [try: m except ...: h]: [h e] is [None] when no clause matches [e]. *)
Definition try_except {A} (m : IO A) (h : exn -> option (IO A)) : IO A :=
  fun t =>
    match m t with
    | (Ok a, t') => (Ok a, t')
    | (Raise e, t') =>
        match h e with
        | Some k => k t'
        | None => (Raise e, t')
        end
    end.

Declare Scope io_scope.
Delimit Scope io_scope with io.
Notation "x <- m ;; k" := (bind m (fun x => k))
  (at level 100, m at next level, right associativity) : io_scope.
Notation "m ;; k" := (bind m (fun _ => k))
  (at level 100, right associativity) : io_scope.

Definition print (line : string) : IO unit := emit (Print line).

(** [input(prompt)] *)
Definition input (w : world) (prompt : string) : IO string :=
  (emit (Prompt prompt) ;; lift (stdin w))%io.

(** [load_dotenv()]: the bindings of the file are added to the environment,
    those already set are kept. *)
Definition load_dotenv (w : world) : gmap string string :=
  os_environ w ∪ dotenv_file w.

(** ** requests *)

Module Requests.

(** [Response.raise_for_status] *)
Definition raise_for_status (resp : response) : result unit :=
  let describe kind :=
    PyString.of_Z (status_code resp) ++ " " ++ kind ++ " Error: " ++ reason resp
    ++ " for url: " ++ url resp in
  let http_error msg :=
    Raise {| exn_class_of := HTTPError; exn_str := msg;
             exn_response := Some resp |} in
  if (400 <=? status_code resp) && (status_code resp <? 500)
  then http_error (describe "Client")
  else if (500 <=? status_code resp) && (status_code resp <? 600)
  then http_error (describe "Server")
  else Ok tt.

(** [Response.json] *)
Definition json (resp : response) : result pyval :=
  match json_value resp with
  | Some v => Ok v
  | None => Raise (mk_exn JSONDecodeError (json_error resp))
  end.

(** [Session.get]: the request goes out, the world answers. *)
Definition get (w : world) (req : request) : IO response :=
  (emit (HttpGet req) ;; lift (http w req))%io.

End Requests.

(** ** The program *)

Definition TMDB_SEARCH_URL : string := "https://api.themoviedb.org/3/search/movie".

Record Movie : Type := {
  id : pyval;
  title : pyval;
  original_title : pyval;
  release_date : pyval;
  overview : pyval;
  popularity : float;
  vote_average : float;
  poster_path : pyval;
}.

Record TMDBClient : Type := {
  bearer_token : string;
  lang : string;
  session_headers : list (string * string);
}.

Record MovieService : Type := { client : TMDBClient }.

Record ConsoleUI : Type := { service : MovieService }.

(** How a process ends. *)
Inductive exit_status : Type :=
| ExitSuccess
| ExitUncaught (e : exn).

Section Program.
Context {L : PyLib}.

(** [Movie.short_str] *)
Definition short_str (self : Movie) : result string :=
  (let* year :=
     if truthy (release_date self)
     then match release_date self with
          | PyStr d => Ok (hd "" (PyString.split "-" d))
          | v => Raise (no_attribute v "split")
          end
     else Ok "s/f" in
   Ok ("[" ++ year ++ "] " ++ py_str (title self) ++ " ( - "
       ++ PyFormat.fixed 1 (vote_average self) ++ ", pop "
       ++ PyFormat.fixed 0 (popularity self) ++ ")"))%result.

Definition missing_token : string :=
  "Falta TMDB_BEARER_TOKEN en ambiente o no se paso el token al constructor".

(** [x or y] on optional strings: [x] when it is a non-empty string. *)
Definition or_else (x y : option string) : option string :=
  match x with
  | Some (String _ _) => x
  | _ => y
  end.

(** [TMDBClient.__init__] *)
Definition TMDBClient_init (token : option string) (lang : string)
    (environ : gmap string string) : result TMDBClient :=
  match or_else token (environ !! "TMDB_BEARER_TOKEN") with
  | Some (String c tk) =>
      Ok {| bearer_token := String c tk;
            lang := lang;
            session_headers :=
              [("Authorization", "Bearer " ++ String c tk);
               ("accept", "application/json")] |}
  | _ => Raise (mk_exn RuntimeError missing_token)
  end.

(** The request [search_movies] sends: the fixed endpoint, the four query
    parameters, the headers of the session and the timeout. *)
Definition search_request (self : TMDBClient) (query : string) (page : Z)
    (include_adult : bool) : request :=
  {| req_url := TMDB_SEARCH_URL;
     req_params :=
       [("query", PyStr query);
        ("include_adult", PyStr (PyString.lower_bool include_adult));
        ("language", PyStr (lang self));
        ("page", PyInt page)];
     req_headers := session_headers self;
     req_timeout := 15 |}.

(** [TMDBClient.search_movies] *)
Definition search_movies (w : world) (self : TMDBClient) (query : string)
    (page : Z) (include_adult : bool) : IO pyval :=
  (resp <- Requests.get w (search_request self query page include_adult) ;;
   lift (Requests.raise_for_status resp) ;;
   lift (Requests.json resp))%io.

(** The [Movie(...)] call in the loop of [find_by_title]; the arguments
    are evaluated in the order written. *)
Definition movie_of_item (item : pyval) : result Movie :=
  (let* v_id := py_get item "id" PyNone in
   let* v_title := py_get item "title" (PyStr "") in
   let* v_original := py_get item "original_title" (PyStr "") in
   let* v_date := py_get item "release_date" PyNone in
   let* v_overview := py_get item "overview" (PyStr "") in
   let* v_pop := py_get item "popularity" (PyFloat 0%float) in
   let* f_pop := py_float v_pop in
   let* v_vote := py_get item "vote_average" (PyFloat 0%float) in
   let* f_vote := py_float v_vote in
   let* v_poster := py_get item "poster_path" PyNone in
   Ok {| id := v_id; title := v_title; original_title := v_original;
         release_date := v_date; overview := v_overview;
         popularity := f_pop; vote_average := f_vote;
         poster_path := v_poster |})%result.

(** The loop of [find_by_title]: [movies] grows by one record per item and
    the first failing item ends the loop. *)
Fixpoint collect (items : list pyval) (movies : list Movie) : result (list Movie) :=
  match items with
  | [] => Ok movies
  | item :: rest =>
      (let* m := movie_of_item item in collect rest (movies ++ [m])%list)%result
  end.

(** What [find_by_title] does with the payload once it has it. *)
Definition movies_of_payload (payload : pyval) : result (list Movie) :=
  (let* results := py_get payload "results" (PyList []) in
   let* items := py_iter results in
   collect items [])%result.

(** [MovieService.find_by_title] *)
Definition find_by_title (w : world) (self : MovieService) (title : string)
    (page : Z) : IO (list Movie) :=
  (payload <- search_movies w (client self) title page false ;;
   lift (movies_of_payload payload))%io.

(** The loop [for i, m in enumerate(movies, start=1): print(...)]. *)
Fixpoint print_movies (i : nat) (movies : list Movie) : IO unit :=
  match movies with
  | [] => ret tt
  | m :: rest =>
      (s <- lift (short_str m) ;;
       print (PyFormat.decimal_width 2 i ++ ". " ++ s) ;;
       print_movies (S i) rest)%io
  end.

(** The clauses [except requests.HTTPError] and [except Exception]. *)
Definition run_handlers (e : exn) : option (IO unit) :=
  if is_HTTPError (exn_class_of e) then Some (print ("Error HTTP: " ++ exn_str e))
  else if is_Exception (exn_class_of e)
  then Some (print ("Ocurrio un error: " ++ exn_str e))
  else None.

(** The [try] block of [ConsoleUI.run]. *)
Definition run_body (w : world) (self : ConsoleUI) : IO unit :=
  (title <- input w "Ingresa el titulo a buscar: " ;;
   if negb (truthy (PyStr (PyString.strip title)))
   then print "Debes ingresar un texto de busqueda."
   else
     movies <- find_by_title w (service self) title 1 ;;
     match movies with
     | [] => print "No se encontraron resultados."
     | _ =>
         print (PyString.nl ++ "Resultados para '" ++ title ++ "':" ++ PyString.nl) ;;
         print_movies 1 movies ;;
         print (PyString.nl ++ "(Primera pagina de resultados)")
     end)%io.

(** [ConsoleUI.run] *)
Definition run (w : world) (self : ConsoleUI) : IO unit :=
  try_except (run_body w self) run_handlers.

(** The [__main__] block: an exception that leaves it ends the process
    with a traceback and a failure status. *)
Definition main (w : world) : exit_status * trace :=
  match TMDBClient_init None "es-MX" (load_dotenv w) with
  | Raise e => (ExitUncaught e, [])
  | Ok client =>
      let service := {| client := client |} in
      let app := {| service := service |} in
      match run w app [] with
      | (Ok _, t) => (ExitSuccess, t)
      | (Raise e, t) => (ExitUncaught e, t)
      end
  end.

(** A result item that [find_by_title] can turn into a [Movie]: a mapping
    whose [popularity] and [vote_average], when present, are accepted by
    [float]. *)
Definition item_convertible (item : pyval) : bool :=
  match item with
  | PyDict d =>
      is_ok (py_float (dict_get d "popularity" (PyFloat 0%float)))
      && is_ok (py_float (dict_get d "vote_average" (PyFloat 0%float)))
  | _ => false
  end.

(** The line [short_str] builds around a year. *)
Definition short_line (year : string) (m : Movie) : string :=
  "[" ++ year ++ "] " ++ py_str (title m) ++ " ( - "
  ++ PyFormat.fixed 1 (vote_average m) ++ ", pop "
  ++ PyFormat.fixed 0 (popularity m) ++ ")".

End Program.

(** ** The process: an output that can fail *)

(** What standard output and the start-up do in a run. The functions
    above take every [print] to succeed; those below are the same code
    with [print] writing to this console. *)
Record console : Type := {
  (** what writing a line does after the events so far: [None] when the
      line is written, the exception [print] raises otherwise *)
  stdout_write : trace -> string -> option exn;
  (** whether flushing standard output fails when the interpreter exits *)
  exit_flush_fails : trace -> bool;
  (** the exception [load_dotenv] raises, if any *)
  dotenv_failure : option exn;
}.

(** How the process ends: with status 0, on an uncaught exception
    (traceback, failure status), or with the failure status of a flush
    that fails at exit. *)
Inductive ending : Type :=
| Succeeded
| Uncaught (e : exn)
| FlushFailed.

(** [print(line)] on a console. *)
Definition print_to (c : console) (line : string) : IO unit :=
  fun t =>
    match stdout_write c t line with
    | None => (Ok tt, (t ++ [Print line])%list)
    | Some e => (Raise e, t)
    end.

Section Process.
Context {L : PyLib}.
Variable c : console.

(** The loop [for i, m in enumerate(movies, start=1): print(...)]. *)
Fixpoint print_movies_to (i : nat) (movies : list Movie) : IO unit :=
  match movies with
  | [] => ret tt
  | m :: rest =>
      (s <- lift (short_str m) ;;
       print_to c (PyFormat.decimal_width 2 i ++ ". " ++ s) ;;
       print_movies_to (S i) rest)%io
  end.

(** The clauses [except requests.HTTPError] and [except Exception]; what
    their [print] raises is handled by nothing. *)
Definition run_handlers_to (e : exn) : option (IO unit) :=
  if is_HTTPError (exn_class_of e) then Some (print_to c ("Error HTTP: " ++ exn_str e))
  else if is_Exception (exn_class_of e)
  then Some (print_to c ("Ocurrio un error: " ++ exn_str e))
  else None.

(** The [try] block of [ConsoleUI.run]. *)
Definition run_body_to (w : world) (self : ConsoleUI) : IO unit :=
  (title <- input w "Ingresa el titulo a buscar: " ;;
   if negb (truthy (PyStr (PyString.strip title)))
   then print_to c "Debes ingresar un texto de busqueda."
   else
     movies <- find_by_title w (service self) title 1 ;;
     match movies with
     | [] => print_to c "No se encontraron resultados."
     | _ =>
         print_to c (PyString.nl ++ "Resultados para '" ++ title ++ "':" ++ PyString.nl) ;;
         print_movies_to 1 movies ;;
         print_to c (PyString.nl ++ "(Primera pagina de resultados)")
     end)%io.

(** [ConsoleUI.run] *)
Definition run_to (w : world) (self : ConsoleUI) : IO unit :=
  try_except (run_body_to w self) run_handlers_to.

(** The [__main__] block as a process: [load_dotenv] and the constructor
    run outside any [try], and standard output is flushed at exit. *)
Definition main_to (w : world) : ending * trace :=
  match dotenv_failure c with
  | Some e => (Uncaught e, [])
  | None =>
      match TMDBClient_init None "es-MX" (load_dotenv w) with
      | Raise e => (Uncaught e, [])
      | Ok client =>
          let service := {| client := client |} in
          let app := {| service := service |} in
          match run_to w app [] with
          | (Ok _, t) => (if exit_flush_fails c t then FlushFailed else Succeeded, t)
          | (Raise e, t) => (Uncaught e, t)
          end
      end
  end.

End Process.

(** A console on which nothing fails. *)
Definition accepting : console :=
  {| stdout_write := fun _ _ => None;
     exit_flush_fails := fun _ => false;
     dotenv_failure := None |}.

(** A console whose reader has gone: every write raises. *)
Definition broken_pipe : console :=
  {| stdout_write := fun _ _ => Some (mk_exn OSError "[Errno 32] Broken pipe");
     exit_flush_fails := fun _ => true;
     dotenv_failure := None |}.

(** A console that buffers every line and cannot flush at exit. *)
Definition full_device : console :=
  {| stdout_write := fun _ _ => None;
     exit_flush_fails := fun _ => true;
     dotenv_failure := None |}.

(** ** Assignment to a field of a record *)

(** [Movie] is declared with a bare [@dataclass], so the [frozen] parameter
    of the decorator has its default. *)
Definition Movie_frozen : bool := false.

(** [self.<field> = ...], [store] being the change the assignment makes: a
    frozen dataclass raises [FrozenInstanceError], which derives from
    [AttributeError]; any other stores the value. *)
Definition Movie_setattr (field : string) (store : Movie -> Movie) (self : Movie)
    : result Movie :=
  if Movie_frozen
  then Raise (mk_exn AttributeError ("cannot assign to field '" ++ field ++ "'"))
  else Ok (store self).

(** The change that [self.title = v] makes. *)
Definition with_title (v : pyval) (self : Movie) : Movie :=
  {| id := id self; title := v; original_title := original_title self;
     release_date := release_date self; overview := overview self;
     popularity := popularity self; vote_average := vote_average self;
     poster_path := poster_path self |}.

(** A result that raises, if at all, an exception deriving from [Exception]. *)
Definition catchable {A} (r : result A) : Prop :=
  forall e, r = Raise e -> is_Exception (exn_class_of e) = true.

(** The same for every outcome of a computation. *)
Definition io_catchable {A} (m : IO A) : Prop :=
  forall t, catchable (fst (m t)).

(** A runtime on which the model can be evaluated: it parses no string and
    quotes without escaping. None of the evaluations below reaches it. *)
Definition plain_lib : PyLib :=
  {| float_of_str := fun _ => None;
     repr_float := fun _ => "<float>";
     repr_str := fun s => "'" ++ s ++ "'" |}.

(** The double nearest to 8.1, which is what the JSON text [8.1] decodes to. *)
Definition f_8_1 : float := 0x1.0333333333333p+3%float.

(** The result item of the end-to-end scenario. *)
Definition matrix_item : pyval :=
  PyDict [("id", PyInt 1); ("title", PyStr "Matrix");
          ("release_date", PyStr "1999-03-31");
          ("vote_average", PyFloat f_8_1); ("popularity", PyFloat 23%float)].

(** A world with a token in the environment, where the user types [typed]
    and every request is answered by [resp]. *)
Definition answering (typed : string) (resp : response) : world :=
  {| os_environ := {[ "TMDB_BEARER_TOKEN" := "secret" ]};
     dotenv_file := ∅;
     stdin := Ok typed;
     http := fun _ => Ok resp |}.

Definition json_response (status : Z) (payload : pyval) : response :=
  {| status_code := status; reason := ""; url := TMDB_SEARCH_URL;
     content := ""; json_value := Some payload; json_error := "" |}.

Definition sample_client : TMDBClient :=
  {| bearer_token := "secret"; lang := "es-MX";
     session_headers := [("Authorization", "Bearer secret");
                         ("accept", "application/json")] |}.

Definition sample_ui : ConsoleUI :=
  {| service := {| client := sample_client |} |}.

(** The request the sample client sends for [Matrix]. *)
Definition matrix_request : request := search_request sample_client "Matrix" 1 false.

(** [{"results": [<the Matrix item>, {}]}] *)
Definition two_items : pyval := PyDict [("results", PyList [matrix_item; PyDict []])].

(** The record built from the Matrix item. *)
Definition matrix_movie : Movie :=
  {| id := PyInt 1; title := PyStr "Matrix"; original_title := PyStr "";
     release_date := PyStr "1999-03-31"; overview := PyStr "";
     popularity := 23%float; vote_average := f_8_1; poster_path := PyNone |}.

(** The record built from an item without any field. *)
Definition blank_movie : Movie :=
  {| id := PyNone; title := PyStr ""; original_title := PyStr "";
     release_date := PyNone; overview := PyStr "";
     popularity := 0%float; vote_average := 0%float; poster_path := PyNone |}.

(** A world without a token anywhere. *)
Definition no_token : world :=
  {| os_environ := ∅; dotenv_file := ∅; stdin := Ok "Matrix";
     http := fun _ => Ok (json_response 200 two_items) |}.

(** A response that is not JSON. *)
Definition not_json : response :=
  {| status_code := 200; reason := "OK"; url := TMDB_SEARCH_URL;
     content := "<html>"; json_value := None;
     json_error := "Expecting value: line 1 column 1 (char 0)" |}.

(** The events that are calls of [print]. *)
Definition is_print (ev : event) : bool :=
  match ev with Print _ => true | _ => false end.

(** The line [print_movies] writes for the record at position [k] of a
    list numbered from [i], given what [short_str] returned for it. *)
Definition numbered (i : nat) (k : nat) (s : string) : event :=
  Print (PyFormat.decimal_width 2 (i + k) ++ ". " ++ s).

(** A world with a token where the user types [Matrix] and the network
    fails with [e]. *)
Definition unreachable (e : exn) : world :=
  {| os_environ := {[ "TMDB_BEARER_TOKEN" := "secret" ]};
     dotenv_file := ∅;
     stdin := Ok "Matrix";
     http := fun _ => Raise e |}.

(** A world with a token where reading the line fails with [e]. *)
Definition interrupted (e : exn) : world :=
  {| os_environ := {[ "TMDB_BEARER_TOKEN" := "secret" ]};
     dotenv_file := ∅;
     stdin := Raise e;
     http := fun _ => Ok (json_response 200 two_items) |}.

(** A world whose token is in the [.env] file only. *)
Definition dotenv_only : world :=
  {| os_environ := ∅;
     dotenv_file := {[ "TMDB_BEARER_TOKEN" := "filetoken" ]};
     stdin := Ok "Matrix";
     http := fun _ => Ok (json_response 200 two_items) |}.

(** A record whose [release_date] is a number. *)
Definition numeric_date_movie : Movie :=
  {| id := PyInt 2; title := PyStr "Odd"; original_title := PyStr "";
     release_date := PyInt 1999; overview := PyStr "";
     popularity := 0%float; vote_average := 0%float; poster_path := PyNone |}.

(** An item whose [release_date] is a number, from which
    [numeric_date_movie] is built. *)
Definition numeric_date_item : pyval :=
  PyDict [("id", PyInt 2); ("title", PyStr "Odd"); ("release_date", PyInt 1999)].

(** The prompt of [ConsoleUI.run] as an event. *)
Definition the_prompt : event := Prompt "Ingresa el titulo a buscar: ".

(** An item whose [popularity] is null. *)
Definition null_popularity_item : pyval := PyDict [("popularity", PyNone)].

(** The line [short_str] gives for [matrix_movie]. *)
Definition matrix_line : string := "[1999] Matrix ( - 8.1, pop 23)".

(** A world whose environment sets the variable to the empty string while
    the [.env] file has a token. *)
Definition empty_variable : world :=
  {| os_environ := {[ "TMDB_BEARER_TOKEN" := "" ]};
     dotenv_file := {[ "TMDB_BEARER_TOKEN" := "filetoken" ]};
     stdin := Ok "Matrix";
     http := fun _ => Ok (json_response 200 two_items) |}.

(** * Properties *)

(** ** Strings *)

Section StringFacts.

Lemma lstrip_blank (s : string) :
  PyString.all_chars PyString.isspace s = true -> PyString.lstrip s = "".
Proof.
  induction s as [|c s IH]; simpl; [reflexivity|].
  intros H. apply andb_true_iff in H as [Hc Hs]. rewrite Hc. auto.
Qed.

Lemma lstrip_empty_inv (s : string) :
  PyString.lstrip s = "" -> PyString.all_chars PyString.isspace s = true.
Proof.
  induction s as [|c s IH]; simpl; [reflexivity|].
  destruct (PyString.isspace c); [auto | discriminate].
Qed.

Lemma rstrip_blank (s : string) :
  PyString.all_chars PyString.isspace s = true -> PyString.rstrip s = "".
Proof.
  induction s as [|c s IH]; simpl; [reflexivity|].
  intros H. apply andb_true_iff in H as [Hc Hs].
  rewrite (IH Hs), Hc. reflexivity.
Qed.

Lemma rstrip_empty_inv (s : string) :
  PyString.rstrip s = "" -> PyString.all_chars PyString.isspace s = true.
Proof.
  induction s as [|c s IH]; simpl; [reflexivity|].
  destruct (PyString.rstrip s); [|discriminate].
  destruct (PyString.isspace c); [auto | discriminate].
Qed.

(** The first character that [lstrip] keeps is not whitespace. *)
Lemma lstrip_head (s : string) c r :
  PyString.lstrip s = String c r -> PyString.isspace c = false.
Proof.
  induction s as [|a s IH]; simpl; [discriminate|].
  destruct (PyString.isspace a) eqn:Ha; [exact IH|].
  intros [= <- _]. exact Ha.
Qed.

(** [s.strip()] is empty exactly when [s] holds whitespace only. *)
Lemma strip_empty_iff (s : string) :
  PyString.strip s = "" <-> PyString.all_chars PyString.isspace s = true.
Proof.
  unfold PyString.strip. split.
  - intros H. apply lstrip_empty_inv.
    destruct (PyString.lstrip s) as [|c r] eqn:E; [reflexivity|].
    apply rstrip_empty_inv in H. simpl in H.
    rewrite (lstrip_head _ _ _ E) in H. discriminate.
  - intros H. rewrite (lstrip_blank _ H). reflexivity.
Qed.

Lemma split_nonempty sep (s : string) : PyString.split sep s <> [].
Proof.
  destruct s as [|c s]; simpl; [discriminate|].
  destruct (Ascii.eqb c sep); [discriminate|].
  destruct (PyString.split sep s); discriminate.
Qed.

(** The first piece of a split holds no separator, and is all of [s] or
    is followed in [s] by a separator. *)
Lemma split_head sep (s : string) :
  let y := hd "" (PyString.split sep s) in
  PyString.all_chars (fun c => negb (Ascii.eqb c sep)) y = true
  /\ (s = y \/ exists rest, s = y ++ String sep rest).
Proof.
  induction s as [|c s IH]; simpl.
  - split; [reflexivity | left; reflexivity].
  - destruct (Ascii.eqb c sep) eqn:E; simpl.
    + split; [reflexivity|]. right. exists s.
      apply Ascii.eqb_eq in E. subst. reflexivity.
    + destruct (PyString.split sep s) as [|p ps] eqn:Es.
      * exfalso. exact (split_nonempty _ _ Es).
      * simpl in *. destruct IH as [Hp Hs]. rewrite E, Hp. split; [reflexivity|].
        destruct Hs as [-> | [rest ->]]; [left | right; exists rest]; reflexivity.
Qed.

End StringFacts.

(** ** Rounding *)

Section RoundingFacts.

(** [round_half_even_div a b] is an integer nearest to [a / b]. *)
Lemma round_half_even_div_nearest (a b : Z) :
  0 <= a -> 0 < b ->
  2 * Z.abs (PyFormat.round_half_even_div a b * b - a) <= b.
Proof.
  intros Ha Hb. unfold PyFormat.round_half_even_div.
  pose proof (Z.div_mod a b ltac:(lia)) as Hdm.
  pose proof (Z.mod_pos_bound a b Hb) as Hr.
  destruct (Z.compare_spec (2 * (a mod b)) b) as [E|E|E];
    [destruct (Z.even (a / b))| |]; nia.
Qed.

(** With a non-negative exponent the scaled value is exact. *)
Lemma scaled_exact (d : nat) (m : positive) (e : Z) :
  0 <= e -> PyFormat.scaled d m e = Zpos m * 10 ^ Z.of_nat d * 2 ^ e.
Proof.
  intros He. unfold PyFormat.scaled.
  destruct (0 <=? e) eqn:E; [reflexivity | lia].
Qed.

(** Otherwise it is within one half of [m * 10^d / 2^(-e)]. *)
Lemma scaled_nearest (d : nat) (m : positive) (e : Z) :
  e < 0 ->
  2 * Z.abs (PyFormat.scaled d m e * 2 ^ (- e) - Zpos m * 10 ^ Z.of_nat d)
  <= 2 ^ (- e).
Proof.
  intros He. unfold PyFormat.scaled.
  destruct (0 <=? e) eqn:E; [lia|].
  apply round_half_even_div_nearest.
  - assert (0 < 10 ^ Z.of_nat d) by (apply Z.pow_pos_nonneg; lia). lia.
  - apply Z.pow_pos_nonneg; lia.
Qed.

End RoundingFacts.

(** ** Building the records *)

Section Construction.
Context {L : PyLib}.

Lemma is_ok_true {A} (r : result A) : is_ok r = true -> exists a, r = Ok a.
Proof. destruct r; [eauto | discriminate]. Qed.

(** On a mapping only the two conversions can fail. *)
Lemma movie_of_item_dict d :
  movie_of_item (PyDict d) =
  (let* f_pop := py_float (dict_get d "popularity" (PyFloat 0%float)) in
   let* f_vote := py_float (dict_get d "vote_average" (PyFloat 0%float)) in
   Ok {| id := dict_get d "id" PyNone;
         title := dict_get d "title" (PyStr "");
         original_title := dict_get d "original_title" (PyStr "");
         release_date := dict_get d "release_date" PyNone;
         overview := dict_get d "overview" (PyStr "");
         popularity := f_pop; vote_average := f_vote;
         poster_path := dict_get d "poster_path" PyNone |})%result.
Proof. reflexivity. Qed.

(** A record was built only from a mapping, field by field. *)
Lemma movie_of_item_inv item m :
  movie_of_item item = Ok m ->
  exists d, item = PyDict d
    /\ py_float (dict_get d "popularity" (PyFloat 0%float)) = Ok (popularity m)
    /\ py_float (dict_get d "vote_average" (PyFloat 0%float)) = Ok (vote_average m)
    /\ id m = dict_get d "id" PyNone
    /\ title m = dict_get d "title" (PyStr "")
    /\ original_title m = dict_get d "original_title" (PyStr "")
    /\ release_date m = dict_get d "release_date" PyNone
    /\ overview m = dict_get d "overview" (PyStr "")
    /\ poster_path m = dict_get d "poster_path" PyNone.
Proof.
  destruct item as [| | | | |l|d]; try discriminate.
  rewrite movie_of_item_dict. intros H. exists d.
  destruct (py_float (dict_get d "popularity" _)) as [fp|]; [|discriminate].
  destruct (py_float (dict_get d "vote_average" _)) as [fv|]; [|discriminate].
  simpl in H. injection H as <-. simpl. repeat split; reflexivity.
Qed.

Lemma movie_of_item_convertible item :
  item_convertible item = true -> exists m, movie_of_item item = Ok m.
Proof.
  destruct item as [| | | | |l|d]; try discriminate. simpl item_convertible.
  intros H. apply andb_true_iff in H as [Hp Hv].
  apply is_ok_true in Hp as [fp Hp]. apply is_ok_true in Hv as [fv Hv].
  rewrite movie_of_item_dict, Hp, Hv. simpl. eauto.
Qed.

(** The loop appends to [movies] one record per item, in order. *)
Lemma collect_inv items : forall movies out,
  collect items movies = Ok out ->
  exists built, out = (movies ++ built)%list
    /\ Forall2 (fun it m => movie_of_item it = Ok m) items built.
Proof.
  induction items as [|it items IH]; simpl; intros movies out H.
  - injection H as <-. exists []. rewrite app_nil_r. split; [reflexivity | constructor].
  - destruct (movie_of_item it) as [m|] eqn:Em; [|discriminate]. simpl in H.
    destruct (IH _ _ H) as (built & -> & HF). exists (m :: built).
    rewrite <- app_assoc. split; [reflexivity | constructor; assumption].
Qed.

Lemma collect_convertible items : forall movies,
  Forall (fun it => item_convertible it = true) items ->
  exists built, collect items movies = Ok (movies ++ built)%list
    /\ Forall2 (fun it m => movie_of_item it = Ok m) items built.
Proof.
  induction items as [|it items IH]; simpl; intros movies H.
  - exists []. rewrite app_nil_r. split; [reflexivity | constructor].
  - inversion H as [|? ? Hit Hrest]; subst.
    destruct (movie_of_item_convertible _ Hit) as [m Em]. rewrite Em. simpl.
    destruct (IH (movies ++ [m])%list Hrest) as (built & -> & HF).
    exists (m :: built). rewrite <- app_assoc.
    split; [reflexivity | constructor; assumption].
Qed.

(** [find_by_title] is [search_movies] followed by the conversion. *)
Lemma find_by_title_payload w self title page t t' payload :
  search_movies w (client self) title page false t = (Ok payload, t') ->
  find_by_title w self title page t = (movies_of_payload payload, t').
Proof. intros H. unfold find_by_title, bind, lift. rewrite H. reflexivity. Qed.

Lemma movies_of_payload_list d items :
  dict_lookup "results" d = Some (PyList items) ->
  movies_of_payload (PyDict d) = collect items [].
Proof. intros H. unfold movies_of_payload. simpl. unfold dict_get. rewrite H. reflexivity. Qed.

End Construction.

(** ** The service *)

Section Service.
Context {L : PyLib}.

(** C1 (as amended): when the [results] field of the payload is a sequence of N
    mapping items whose [popularity] and [vote_average] are absent or
    accepted by [float], [find_by_title] returns exactly N records, the
    k-th one built from the k-th item: nothing is dropped, merged or
    reordered. *)
Theorem C1_find_by_title_one_movie_per_item
    w self title page t t' d items :
  search_movies w (client self) title page false t = (Ok (PyDict d), t') ->
  dict_lookup "results" d = Some (PyList items) ->
  Forall (fun it => item_convertible it = true) items ->
  exists movies,
    find_by_title w self title page t = (Ok movies, t')
    /\ length movies = length items
    /\ Forall2 (fun it m => movie_of_item it = Ok m) items movies.
Proof.
  intros Hs Hr Hi.
  rewrite (find_by_title_payload _ _ _ _ _ _ _ Hs), (movies_of_payload_list _ _ Hr).
  destruct (collect_convertible items [] Hi) as (built & -> & HF).
  exists built. simpl. repeat split; [|exact HF].
  symmetry. exact (Forall2_length _ _ _ HF).
Qed.

(** C2 (as amended): when the payload is a mapping without a [results] field,
    [find_by_title] returns an empty list; when the field is there with a
    value that cannot be iterated (null, a boolean, a number),
    [find_by_title] fails with a [TypeError]. *)
Theorem C2_absent_results_is_empty w self title page t t' d :
  search_movies w (client self) title page false t = (Ok (PyDict d), t') ->
  (dict_lookup "results" d = None ->
   find_by_title w self title page t = (Ok [], t'))
  /\ (forall v, dict_lookup "results" d = Some v ->
      match v with PyNone | PyBool _ | PyInt _ | PyFloat _ => True | _ => False end ->
      exists e, find_by_title w self title page t = (Raise e, t')
                /\ exn_class_of e = TypeError).
Proof.
  intros Hs. rewrite (find_by_title_payload _ _ _ _ _ _ _ Hs).
  unfold movies_of_payload. simpl. unfold dict_get. split.
  - intros ->. reflexivity.
  - intros v -> Hv. destruct v; try contradiction; simpl; eauto.
Qed.

(** C3: a record built from a mapping item has [0.0] for a missing
    [vote_average] or [popularity], the empty string for a missing
    [title], [original_title] or [overview], and [None] for a missing
    [release_date] or [poster_path]; an item that misses both numbers is
    always turned into a record. *)
Theorem C3_default_filling d :
  (dict_lookup "popularity" d = None -> dict_lookup "vote_average" d = None ->
   exists m, movie_of_item (PyDict d) = Ok m)
  /\ forall m, movie_of_item (PyDict d) = Ok m ->
     (dict_lookup "vote_average" d = None -> vote_average m = 0%float)
     /\ (dict_lookup "popularity" d = None -> popularity m = 0%float)
     /\ (dict_lookup "title" d = None -> title m = PyStr "")
     /\ (dict_lookup "original_title" d = None -> original_title m = PyStr "")
     /\ (dict_lookup "overview" d = None -> overview m = PyStr "")
     /\ (dict_lookup "release_date" d = None -> release_date m = PyNone)
     /\ (dict_lookup "poster_path" d = None -> poster_path m = PyNone).
Proof.
  split.
  - intros Hp Hv. rewrite movie_of_item_dict. unfold dict_get.
    rewrite Hp, Hv. simpl. eauto.
  - intros m Hm. apply movie_of_item_inv in Hm
      as (d' & [= <-] & Hp & Hv & _ & Ht & Ho & Hd & Hov & Hpp).
    unfold dict_get in *.
    repeat split; intros E; rewrite E in *; simpl in *; congruence.
Qed.

(** Every record [find_by_title] returns was built from a mapping item and
    its [id] is the value that item has under the key [id]. *)
Lemma constructed_ids w self title page t t' d items movies :
  search_movies w (client self) title page false t = (Ok (PyDict d), t') ->
  dict_lookup "results" d = Some (PyList items) ->
  find_by_title w self title page t = (Ok movies, t') ->
  Forall2 (fun it m =>
             exists e, it = PyDict e
               /\ id m = dict_get e "id" PyNone
               /\ (forall n, dict_lookup "id" e = Some (PyInt n) -> id m = PyInt n)
               /\ (dict_lookup "id" e = None -> id m = PyNone))
          items movies.
Proof.
  intros Hs Hr.
  rewrite (find_by_title_payload _ _ _ _ _ _ _ Hs), (movies_of_payload_list _ _ Hr).
  intros [= H]. apply collect_inv in H as (built & -> & HF). simpl.
  eapply Forall2_impl; [exact HF|]. intros it m Hm.
  apply movie_of_item_inv in Hm as (e & -> & _ & _ & Hid & _).
  exists e. rewrite Hid. unfold dict_get.
  repeat split; [intros n -> | intros ->]; reflexivity.
Qed.

End Service.

(** ** Which exceptions can be raised *)

Section Exceptions.
Context {L : PyLib}.

Lemma catchable_ok {A} (a : A) : catchable (Ok a).
Proof. intros e H. discriminate. Qed.

Lemma catchable_raise {A} e :
  is_Exception (exn_class_of e) = true -> catchable (@Raise A e).
Proof. intros He e' [= <-]. exact He. Qed.

Lemma catchable_rbind {A B} (r : result A) (k : A -> result B) :
  catchable r -> (forall a, catchable (k a)) -> catchable (rbind r k).
Proof.
  intros Hr Hk. destruct r as [a|e]; simpl; [apply Hk|].
  intros e' [= <-]. apply Hr. reflexivity.
Qed.

Lemma io_catchable_ret {A} (a : A) : io_catchable (ret a).
Proof. intros t. apply catchable_ok. Qed.

Lemma io_catchable_lift {A} (r : result A) : catchable r -> io_catchable (lift r).
Proof. intros H t. exact H. Qed.

Lemma io_catchable_emit ev : io_catchable (emit ev).
Proof. intros t. apply catchable_ok. Qed.

Lemma io_catchable_bind {A B} (m : IO A) (k : A -> IO B) :
  io_catchable m -> (forall a, io_catchable (k a)) -> io_catchable (bind m k).
Proof.
  intros Hm Hk t. unfold bind. specialize (Hm t).
  destruct (m t) as [[a|e] t']; simpl in *; [apply Hk|].
  intros e' [= <-]. apply Hm. reflexivity.
Qed.

Lemma py_get_catchable v k dflt : catchable (py_get v k dflt).
Proof.
  destruct v; simpl; try apply catchable_ok; apply catchable_raise; reflexivity.
Qed.

Lemma py_iter_catchable v : catchable (py_iter v).
Proof.
  destruct v; simpl; try apply catchable_ok; apply catchable_raise; reflexivity.
Qed.

Lemma py_float_catchable v : catchable (py_float v).
Proof.
  destruct v; simpl; try apply catchable_ok;
    try (apply catchable_raise; reflexivity).
  - destruct (is_infinite _); [apply catchable_raise; reflexivity | apply catchable_ok].
  - destruct (float_of_str s); [apply catchable_ok | apply catchable_raise; reflexivity].
Qed.

Lemma movie_of_item_catchable item : catchable (movie_of_item item).
Proof.
  unfold movie_of_item.
  repeat (apply catchable_rbind;
          [first [apply py_get_catchable | apply py_float_catchable] | intros ?]).
  apply catchable_ok.
Qed.

Lemma collect_catchable items : forall movies, catchable (collect items movies).
Proof.
  induction items as [|it items IH]; intros movies; simpl.
  - apply catchable_ok.
  - apply catchable_rbind; [apply movie_of_item_catchable | intros m; apply IH].
Qed.

Lemma movies_of_payload_catchable payload : catchable (movies_of_payload payload).
Proof.
  unfold movies_of_payload.
  apply catchable_rbind; [apply py_get_catchable | intros results].
  apply catchable_rbind; [apply py_iter_catchable | intros items].
  apply collect_catchable.
Qed.

Lemma short_str_catchable m : catchable (short_str m).
Proof.
  unfold short_str. apply catchable_rbind; [|intros y; apply catchable_ok].
  destruct (truthy (release_date m)); [|apply catchable_ok].
  destruct (release_date m); try apply catchable_ok;
    apply catchable_raise; reflexivity.
Qed.

Lemma raise_for_status_catchable resp : catchable (Requests.raise_for_status resp).
Proof.
  unfold Requests.raise_for_status.
  destruct (_ && _); [apply catchable_raise; reflexivity|].
  destruct (_ && _); [apply catchable_raise; reflexivity | apply catchable_ok].
Qed.

Lemma json_catchable resp : catchable (Requests.json resp).
Proof.
  unfold Requests.json.
  destruct (json_value resp); [apply catchable_ok | apply catchable_raise; reflexivity].
Qed.

Lemma print_movies_catchable movies : forall i, io_catchable (print_movies i movies).
Proof.
  induction movies as [|m movies IH]; intros i; simpl.
  - apply io_catchable_ret.
  - apply io_catchable_bind; [apply io_catchable_lift, short_str_catchable | intros s].
    apply io_catchable_bind; [apply io_catchable_emit | intros _; apply IH].
Qed.

(** In a world where neither the keyboard nor the network raises anything
    outside [Exception], nothing else does. *)
Variable w : world.
Hypothesis stdin_catchable : catchable (stdin w).
Hypothesis http_catchable : forall req, catchable (http w req).

Lemma search_movies_catchable c query page adult :
  io_catchable (search_movies w c query page adult).
Proof.
  unfold search_movies, Requests.get.
  apply io_catchable_bind.
  - apply io_catchable_bind; [apply io_catchable_emit | intros _].
    apply io_catchable_lift, http_catchable.
  - intros resp. apply io_catchable_bind.
    + apply io_catchable_lift, raise_for_status_catchable.
    + intros _. apply io_catchable_lift, json_catchable.
Qed.

Lemma find_by_title_catchable self title page :
  io_catchable (find_by_title w self title page).
Proof.
  unfold find_by_title. apply io_catchable_bind.
  - apply search_movies_catchable.
  - intros payload. apply io_catchable_lift, movies_of_payload_catchable.
Qed.

Lemma run_body_catchable self : io_catchable (run_body w self).
Proof.
  unfold run_body, input, print. apply io_catchable_bind.
  - apply io_catchable_bind; [apply io_catchable_emit | intros _].
    apply io_catchable_lift, stdin_catchable.
  - intros title. destruct (negb _); [apply io_catchable_emit|].
    apply io_catchable_bind; [apply find_by_title_catchable | intros movies].
    destruct movies as [|m movies]; [apply io_catchable_emit|].
    apply io_catchable_bind; [apply io_catchable_emit | intros _].
    apply io_catchable_bind; [apply print_movies_catchable | intros _].
    apply io_catchable_emit.
Qed.

End Exceptions.

(** ** The client *)

Section Client.
Context {L : PyLib}.

Lemma or_else_nonempty c tk y : or_else (Some (String c tk)) y = Some (String c tk).
Proof. reflexivity. Qed.

Lemma or_else_missing y : or_else None y = y.
Proof. reflexivity. Qed.

(** What a 4xx or 5xx answer makes of a search. *)
Lemma search_movies_status_error w c query page adult t resp :
  http w (search_request c query page adult) = Ok resp ->
  400 <= status_code resp < 600 ->
  exists kind,
    search_movies w c query page adult t =
    (Raise {| exn_class_of := HTTPError;
              exn_str := PyString.of_Z (status_code resp) ++ " " ++ kind
                         ++ " Error: " ++ reason resp ++ " for url: " ++ url resp;
              exn_response := Some resp |},
     (t ++ [HttpGet (search_request c query page adult)])%list).
Proof.
  intros Hh Hs. unfold search_movies, Requests.get, bind, emit, lift.
  rewrite Hh. unfold Requests.raise_for_status.
  destruct ((400 <=? status_code resp) && (status_code resp <? 500)) eqn:E4.
  - exists "Client". reflexivity.
  - destruct ((500 <=? status_code resp) && (status_code resp <? 600)) eqn:E5.
    + exists "Server". reflexivity.
    + apply andb_false_iff in E4, E5. lia.
Qed.

(** C8: built without a token argument in an environment that has none,
    the client fails with the [RuntimeError] that reports the missing
    credential; built with a non-empty token, given as argument or found in
    the environment, it succeeds; and when [__main__] finds no token the
    process ends on that error before anything is prompted or printed. *)
Theorem C8_client_needs_a_credential token lang environ :
  (token = None -> environ !! "TMDB_BEARER_TOKEN" = None ->
   TMDBClient_init token lang environ = Raise (mk_exn RuntimeError missing_token))
  /\ (forall tk, tk <> "" ->
      token = Some tk \/ environ !! "TMDB_BEARER_TOKEN" = Some tk ->
      exists c, TMDBClient_init token lang environ = Ok c
                /\ bearer_token c <> ""
                /\ (token = Some tk -> bearer_token c = tk)
                /\ (token = None -> bearer_token c = tk))
  /\ (forall w, os_environ w !! "TMDB_BEARER_TOKEN" = None ->
      dotenv_file w !! "TMDB_BEARER_TOKEN" = None ->
      main w = (ExitUncaught (mk_exn RuntimeError missing_token), [])).
Proof.
  repeat split.
  - intros -> He. unfold TMDBClient_init. rewrite or_else_missing, He. reflexivity.
  - intros tk Htk [-> | He].
    + destruct tk as [|a tk]; [contradiction|].
      unfold TMDBClient_init. rewrite or_else_nonempty.
      eexists. split; [reflexivity|]. simpl. repeat split; congruence.
    + unfold TMDBClient_init.
      destruct token as [[|a s]|]; simpl or_else; rewrite ?He;
        (destruct tk as [|b tk]; [contradiction|]);
        eexists; (split; [reflexivity|]); simpl; repeat split; congruence.
  - intros w Ho Hd. unfold main, load_dotenv, TMDBClient_init.
    rewrite or_else_missing.
    assert ((os_environ w ∪ dotenv_file w) !! "TMDB_BEARER_TOKEN" = None) as ->
      by (apply lookup_union_None; split; assumption).
    reflexivity.
Qed.

End Client.

(** ** The presenter *)

Section Presenter.
Context {L : PyLib}.

Lemma short_str_none m :
  release_date m = PyNone -> short_str m = Ok (short_line "s/f" m).
Proof. intros H. unfold short_str. rewrite H. reflexivity. Qed.

Lemma short_str_date m c d :
  release_date m = PyStr (String c d) ->
  short_str m = Ok (short_line (hd "" (PyString.split "-" (String c d))) m).
Proof. intros H. unfold short_str. rewrite H. reflexivity. Qed.

(** Past the prompt, [run_body] goes on with the line typed. *)
Lemma run_body_typed w self t title :
  stdin w = Ok title ->
  run_body w self t =
  (if negb (truthy (PyStr (PyString.strip title)))
   then print "Debes ingresar un texto de busqueda."
   else
     movies <- find_by_title w (service self) title 1 ;;
     match movies with
     | [] => print "No se encontraron resultados."
     | _ =>
         print (PyString.nl ++ "Resultados para '" ++ title ++ "':" ++ PyString.nl) ;;
         print_movies 1 movies ;;
         print (PyString.nl ++ "(Primera pagina de resultados)")
     end)%io (t ++ [Prompt "Ingresa el titulo a buscar: "])%list.
Proof.
  intros H. unfold run_body, input, bind at 1, emit, lift. rewrite H. reflexivity.
Qed.

Lemma strip_truthy title :
  PyString.strip title <> "" -> negb (truthy (PyStr (PyString.strip title))) = false.
Proof. intros H. simpl. destruct (PyString.strip title); [contradiction | reflexivity]. Qed.

(** A search answered with a status outside 400..599 and a JSON body
    yields the decoded payload. *)
Lemma search_movies_payload w c query page adult t resp payload :
  http w (search_request c query page adult) = Ok resp ->
  ~ (400 <= status_code resp < 600) ->
  json_value resp = Some payload ->
  search_movies w c query page adult t =
  (Ok payload, (t ++ [HttpGet (search_request c query page adult)])%list).
Proof.
  intros Hh Hs Hj. unfold search_movies, Requests.get, bind, emit, lift.
  rewrite Hh. unfold Requests.raise_for_status, Requests.json.
  destruct ((400 <=? status_code resp) && (status_code resp <? 500)) eqn:E4;
    [apply andb_true_iff in E4; lia|].
  destruct ((500 <=? status_code resp) && (status_code resp <? 600)) eqn:E5;
    [apply andb_true_iff in E5; lia|].
  rewrite Hj. reflexivity.
Qed.

(** C4: [short_str] puts between the brackets ["s/f"] when [release_date]
    is [None] and, when it is a date text, the part of it before the first
    dash (["2010"] for ["2010-05-01"]); the line is
    [[year] title ( - vote_average with one decimal, pop popularity with none)];
    and when the user types [Matrix] and the search is answered with the one
    Matrix item, the run prints the line [ 1. [1999] Matrix ( - 8.1, pop 23)]. *)
Theorem C4_short_str_line :
  (forall m, release_date m = PyNone -> short_str m = Ok (short_line "s/f" m))
  /\ (forall m d, release_date m = PyStr d -> d <> "" ->
      exists year,
        short_str m = Ok (short_line year m)
        /\ PyString.all_chars (fun c => negb (Ascii.eqb c "-")) year = true
        /\ (d = year \/ exists rest, d = year ++ String "-" rest))
  /\ (forall m, release_date m = PyStr "2010-05-01" ->
      short_str m = Ok (short_line "2010" m))
  /\ (forall year m, short_line year m =
        "[" ++ year ++ "] " ++ py_str (title m) ++ " ( - "
        ++ PyFormat.fixed 1 (vote_average m) ++ ", pop "
        ++ PyFormat.fixed 0 (popularity m) ++ ")")
  /\ (forall w self resp,
      stdin w = Ok "Matrix" ->
      http w (search_request (client (service self)) "Matrix" 1 false) = Ok resp ->
      200 <= status_code resp < 300 ->
      json_value resp = Some (PyDict [("results", PyList [matrix_item])]) ->
      fst (run w self []) = Ok tt
      /\ In (Print " 1. [1999] Matrix ( - 8.1, pop 23)") (snd (run w self []))).
Proof.
  split; [exact short_str_none|].
  split.
  { intros m d Hd Hne. destruct d as [|c d]; [contradiction|].
    exists (hd "" (PyString.split "-" (String c d))).
    split; [apply short_str_date; exact Hd|].
    exact (split_head "-" (String c d)). }
  split.
  { intros m Hd. rewrite (short_str_date _ _ _ Hd). reflexivity. }
  split; [reflexivity|].
  intros w self resp Hin Hh Hs Hj.
  assert (run w self [] =
          (Ok tt,
           [Prompt "Ingresa el titulo a buscar: ";
            HttpGet (search_request (client (service self)) "Matrix" 1 false);
            Print (PyString.nl ++ "Resultados para 'Matrix':" ++ PyString.nl);
            Print " 1. [1999] Matrix ( - 8.1, pop 23)";
            Print (PyString.nl ++ "(Primera pagina de resultados)")])) as E.
  { unfold run, try_except. rewrite (run_body_typed _ _ _ _ Hin).
    change (negb (truthy (PyStr (PyString.strip "Matrix")))) with false. cbv iota.
    unfold bind at 1, find_by_title, bind at 1.
    rewrite (search_movies_payload _ _ _ _ _ _ _ _ Hh ltac:(lia) Hj).
    vm_compute. reflexivity. }
  rewrite E. split; [reflexivity|]. simpl. auto.
Qed.

(** C5: when the line typed is empty or holds whitespace only, the run
    prompts, prints that a search text is required and returns normally;
    no request is sent. *)
Theorem C5_blank_input_sends_nothing w self t title :
  stdin w = Ok title ->
  PyString.all_chars PyString.isspace title = true ->
  run w self t =
  (Ok tt, (t ++ [Prompt "Ingresa el titulo a buscar: ";
                 Print "Debes ingresar un texto de busqueda."])%list)
  /\ (forall req, In (HttpGet req) (snd (run w self t)) -> In (HttpGet req) t).
Proof.
  intros Hin Hb.
  assert (run w self t =
          (Ok tt, (t ++ [Prompt "Ingresa el titulo a buscar: ";
                         Print "Debes ingresar un texto de busqueda."])%list)) as E.
  { unfold run, try_except. rewrite (run_body_typed _ _ _ _ Hin).
    apply strip_empty_iff in Hb. rewrite Hb. simpl. unfold print, emit.
    rewrite <- app_assoc. reflexivity. }
  split; [exact E|]. rewrite E. simpl. intros req Hreq.
  apply in_app_or in Hreq as [H | [H | [H | []]]]; [exact H | discriminate..].
Qed.

(** C10: an item whose [release_date] is the empty string gives a record
    whose [release_date] is the empty string, and [short_str] renders it
    with ["s/f"], exactly as it renders the record with no date. *)
Theorem C10_empty_release_date d m :
  dict_lookup "release_date" d = Some (PyStr "") ->
  movie_of_item (PyDict d) = Ok m ->
  release_date m = PyStr ""
  /\ short_str m = Ok (short_line "s/f" m)
  /\ short_str m =
     short_str {| id := id m; title := title m; original_title := original_title m;
                  release_date := PyNone; overview := overview m;
                  popularity := popularity m; vote_average := vote_average m;
                  poster_path := poster_path m |}.
Proof.
  intros Hd Hm.
  apply movie_of_item_inv in Hm as (d' & [= <-] & _ & _ & _ & _ & _ & Hr & _).
  unfold dict_get in Hr. rewrite Hd in Hr.
  unfold short_str. rewrite Hr. simpl. repeat split; reflexivity.
Qed.

(** An exception that leaves the [try] block is printed by the clause
    that matches its class. *)
Lemma run_handles w self t e t' :
  run_body w self t = (Raise e, t') ->
  is_Exception (exn_class_of e) = true ->
  run w self t =
  (Ok tt, (t' ++ [Print ((if is_HTTPError (exn_class_of e)
                          then "Error HTTP: " else "Ocurrio un error: ")
                         ++ exn_str e)])%list).
Proof.
  intros Hb He. unfold run, try_except, run_handlers. rewrite Hb.
  destruct (is_HTTPError (exn_class_of e)); [reflexivity|].
  rewrite He. reflexivity.
Qed.

(** Every normal end of the [try] block is a [print]. *)
Lemma run_body_returns w self t u t' :
  run_body w self t = (Ok u, t') -> exists t0 line, t' = (t0 ++ [Print line])%list.
Proof.
  unfold run_body, input, bind at 1, bind at 1, emit, lift.
  destruct (stdin w) as [title|e]; [|discriminate].
  destruct (negb _).
  - intros [= _ <-]. eauto.
  - unfold bind at 1.
    destruct (find_by_title w (service self) title 1 _) as [[movies|e] t1]; [|discriminate].
    destruct movies as [|m movies].
    + intros [= _ <-]. eauto.
    + unfold bind at 1, print at 1, emit. unfold bind at 1.
      destruct (print_movies 1 (m :: movies) _) as [[[]|e] t2]; [|discriminate].
      intros [= _ <-]. eauto.
Qed.

(** When only exceptions deriving from [Exception] can leave the [try]
    block, [run] returns normally and its last act is a [print]. *)
Lemma run_returns w self t :
  io_catchable (run_body w self) ->
  exists t0 line, run w self t = (Ok tt, (t0 ++ [Print line])%list).
Proof.
  intros Hc. destruct (run_body w self t) as [[[]|e] t'] eqn:E.
  - destruct (run_body_returns _ _ _ _ _ E) as (t0 & line & ->).
    exists t0, line. unfold run, try_except. rewrite E. reflexivity.
  - specialize (Hc t). rewrite E in Hc. specialize (Hc e eq_refl).
    rewrite (run_handles _ _ _ _ _ E Hc). eauto.
Qed.

(** C6 (as amended): a response with a status from 400 to 599 makes the search fail
    with an [HTTPError] that carries the response and names its status;
    the presenter catches it, prints the HTTP-error message and returns
    normally; any other exception deriving from [Exception] that leaves
    the [try] block is printed with the generic message, and the run
    returns normally as well. *)
Theorem C6_http_errors_are_reported w self :
  (forall c query page adult t resp,
     http w (search_request c query page adult) = Ok resp ->
     400 <= status_code resp < 600 ->
     exists e kind,
       search_movies w c query page adult t =
       (Raise e, (t ++ [HttpGet (search_request c query page adult)])%list)
       /\ exn_class_of e = HTTPError
       /\ exn_response e = Some resp
       /\ exn_str e = PyString.of_Z (status_code resp) ++ " " ++ kind ++ " Error: "
                      ++ reason resp ++ " for url: " ++ url resp)
  /\ (forall title resp,
      stdin w = Ok title ->
      PyString.strip title <> "" ->
      http w (search_request (client (service self)) title 1 false) = Ok resp ->
      400 <= status_code resp < 600 ->
      exists msg,
        run w self [] =
        (Ok tt, [Prompt "Ingresa el titulo a buscar: ";
                 HttpGet (search_request (client (service self)) title 1 false);
                 Print ("Error HTTP: " ++ msg)]))
  /\ (forall t e t',
      run_body w self t = (Raise e, t') ->
      is_Exception (exn_class_of e) = true ->
      is_HTTPError (exn_class_of e) = false ->
      run w self t = (Ok tt, (t' ++ [Print ("Ocurrio un error: " ++ exn_str e)])%list)).
Proof.
  repeat split.
  - intros c query page adult t resp Hh Hs.
    destruct (search_movies_status_error _ _ _ _ _ t _ Hh Hs) as [kind E].
    eexists. exists kind. rewrite E. repeat split.
  - intros title resp Hin Hne Hh Hs.
    destruct (search_movies_status_error _ _ _ _ _
                [Prompt "Ingresa el titulo a buscar: "] _ Hh Hs) as [kind E].
    eexists. rewrite (run_handles w self [] _ _
      ltac:(rewrite (run_body_typed _ _ _ _ Hin), (strip_truthy _ Hne);
            unfold bind at 1, find_by_title, bind at 1; simpl app; rewrite E;
            reflexivity) eq_refl).
    reflexivity.
  - intros t e t' Hb He Hn. rewrite (run_handles _ _ _ _ _ Hb He), Hn. reflexivity.
Qed.

End Presenter.

(** * The properties on concrete runs *)

(** C1 on the payload with the Matrix item and an empty item: two records,
    in that order. *)
Lemma C1_witness :
  exists movies,
    find_by_title (L := plain_lib) (answering "Matrix" (json_response 200 two_items))
      (service sample_ui) "Matrix" 1 [] = (Ok movies, [HttpGet matrix_request])
    /\ length movies = 2%nat
    /\ Forall2 (fun it m => movie_of_item (L := plain_lib) it = Ok m)
         [matrix_item; PyDict []] movies.
Proof.
  apply (C1_find_by_title_one_movie_per_item (L := plain_lib)
           (answering "Matrix" (json_response 200 two_items)) (service sample_ui)
           "Matrix" 1 [] [HttpGet matrix_request]
           [("results", PyList [matrix_item; PyDict []])]
           [matrix_item; PyDict []]).
  - reflexivity.
  - reflexivity.
  - repeat constructor.
Defined.

(** C1 as stated fails on [{"results": [{"popularity": null}]}]: the one
    item is a mapping, yet [float(None)] raises and no list is returned. *)
Lemma C1_counterexample :
  let payload := PyDict [("results", PyList [PyDict [("popularity", PyNone)]])] in
  let w := answering "Matrix" (json_response 200 payload) in
  search_movies w sample_client "Matrix" 1 false [] = (Ok payload, [HttpGet matrix_request])
  /\ (exists e,
        find_by_title (L := plain_lib) w (service sample_ui) "Matrix" 1 []
        = (Raise e, [HttpGet matrix_request])
        /\ exn_class_of e = TypeError)
  /\ ~ (exists movies t,
          find_by_title (L := plain_lib) w (service sample_ui) "Matrix" 1 []
          = (Ok movies, t) /\ length movies = 1%nat).
Proof.
  cbv zeta. split; [reflexivity|]. split.
  - eexists. split; reflexivity.
  - intros (movies & t & H & _). discriminate H.
Qed.

(** C2 on the payload [{}]: an empty list; and on [{"results": null}]: a
    [TypeError]. *)
Lemma C2_witness :
  find_by_title (L := plain_lib) (answering "Matrix" (json_response 200 (PyDict [])))
    (service sample_ui) "Matrix" 1 [] = (Ok [], [HttpGet matrix_request])
  /\ exists e,
       find_by_title (L := plain_lib)
         (answering "Matrix" (json_response 200 (PyDict [("results", PyNone)])))
         (service sample_ui) "Matrix" 1 [] = (Raise e, [HttpGet matrix_request])
       /\ exn_class_of e = TypeError.
Proof.
  split.
  - apply (proj1 (C2_absent_results_is_empty (L := plain_lib)
                    (answering "Matrix" (json_response 200 (PyDict [])))
                    (service sample_ui) "Matrix" 1 [] [HttpGet matrix_request] []
                    eq_refl)).
    reflexivity.
  - apply (proj2 (C2_absent_results_is_empty (L := plain_lib)
                    (answering "Matrix" (json_response 200 (PyDict [("results", PyNone)])))
                    (service sample_ui) "Matrix" 1 [] [HttpGet matrix_request]
                    [("results", PyNone)] eq_refl) PyNone).
    + reflexivity.
    + exact I.
Defined.

(** C2 as stated fails on [{"results": null}]: the field is wrong-typed,
    and [find_by_title] raises instead of returning an empty list. *)
Lemma C2_counterexample :
  let payload := PyDict [("results", PyNone)] in
  let w := answering "Matrix" (json_response 200 payload) in
  search_movies w sample_client "Matrix" 1 false [] = (Ok payload, [HttpGet matrix_request])
  /\ find_by_title (L := plain_lib) w (service sample_ui) "Matrix" 1 []
     = (Raise (mk_exn TypeError "'NoneType' object is not iterable"),
        [HttpGet matrix_request])
  /\ find_by_title (L := plain_lib) w (service sample_ui) "Matrix" 1 []
     <> (Ok [], [HttpGet matrix_request]).
Proof.
  cbv zeta. split; [reflexivity|]. split; [reflexivity | discriminate].
Qed.

(** C3 on the item [{}]: every field takes its default. *)
Lemma C3_witness :
  (exists m, movie_of_item (L := plain_lib) (PyDict []) = Ok m)
  /\ vote_average blank_movie = 0%float
  /\ popularity blank_movie = 0%float
  /\ title blank_movie = PyStr ""
  /\ original_title blank_movie = PyStr ""
  /\ overview blank_movie = PyStr ""
  /\ release_date blank_movie = PyNone
  /\ poster_path blank_movie = PyNone.
Proof.
  split.
  - apply (proj1 (C3_default_filling (L := plain_lib) [])); reflexivity.
  - destruct (proj2 (C3_default_filling (L := plain_lib) []) blank_movie eq_refl)
      as (Hv & Hp & Ht & Ho & Hov & Hd & Hpp).
    exact (conj (Hv eq_refl) (conj (Hp eq_refl) (conj (Ht eq_refl)
             (conj (Ho eq_refl) (conj (Hov eq_refl) (conj (Hd eq_refl) (Hpp eq_refl))))))).
Defined.

(** C4 on the Matrix record and on the end-to-end scenario. *)
Lemma C4_witness :
  short_str (L := plain_lib) blank_movie = Ok "[s/f]  ( - 0.0, pop 0)"
  /\ (exists year,
        short_str (L := plain_lib) matrix_movie = Ok (short_line (L := plain_lib) year matrix_movie)
        /\ PyString.all_chars (fun c => negb (Ascii.eqb c "-")) year = true
        /\ ("1999-03-31" = year \/ exists rest, "1999-03-31" = year ++ String "-" rest))
  /\ fst (run (L := plain_lib)
            (answering "Matrix" (json_response 200 (PyDict [("results", PyList [matrix_item])])))
            sample_ui []) = Ok tt
  /\ In (Print " 1. [1999] Matrix ( - 8.1, pop 23)")
        (snd (run (L := plain_lib)
                (answering "Matrix"
                   (json_response 200 (PyDict [("results", PyList [matrix_item])])))
                sample_ui [])).
Proof.
  destruct (C4_short_str_line (L := plain_lib)) as (Hnone & Hdate & _ & _ & Hrun).
  split; [exact (Hnone blank_movie eq_refl)|].
  split.
  - apply (Hdate matrix_movie "1999-03-31"); [reflexivity | discriminate].
  - apply (Hrun (answering "Matrix"
                   (json_response 200 (PyDict [("results", PyList [matrix_item])])))
                sample_ui
                (json_response 200 (PyDict [("results", PyList [matrix_item])])));
      [reflexivity | reflexivity | simpl; lia | reflexivity].
Defined.

(** C5 on a line of three spaces. *)
Lemma C5_witness :
  run (L := plain_lib) (answering "   " (json_response 200 two_items)) sample_ui []
  = (Ok tt, [Prompt "Ingresa el titulo a buscar: ";
             Print "Debes ingresar un texto de busqueda."])
  /\ forall req,
       In (HttpGet req)
          (snd (run (L := plain_lib) (answering "   " (json_response 200 two_items))
                  sample_ui [])) ->
       In (HttpGet req) [].
Proof.
  apply (C5_blank_input_sends_nothing (L := plain_lib)
           (answering "   " (json_response 200 two_items)) sample_ui [] "   ");
    reflexivity.
Defined.

(** C6 on a 404 answer, and on an answer that is not JSON. *)
Lemma C6_witness :
  (exists e kind,
     search_movies (answering "Matrix" (json_response 404 two_items))
       sample_client "Matrix" 1 false []
     = (Raise e, [HttpGet matrix_request])
     /\ exn_class_of e = HTTPError
     /\ exn_response e = Some (json_response 404 two_items)
     /\ exn_str e = PyString.of_Z 404 ++ " " ++ kind ++ " Error: "
                    ++ "" ++ " for url: " ++ TMDB_SEARCH_URL)
  /\ (exists msg,
        run (L := plain_lib) (answering "Matrix" (json_response 404 two_items))
          sample_ui []
        = (Ok tt, [Prompt "Ingresa el titulo a buscar: ";
                   HttpGet matrix_request;
                   Print ("Error HTTP: " ++ msg)]))
  /\ run (L := plain_lib) (answering "Matrix" not_json) sample_ui []
     = (Ok tt, [Prompt "Ingresa el titulo a buscar: ";
                HttpGet matrix_request;
                Print "Ocurrio un error: Expecting value: line 1 column 1 (char 0)"]).
Proof.
  split; [|split].
  - apply (proj1 (C6_http_errors_are_reported (L := plain_lib)
                    (answering "Matrix" (json_response 404 two_items)) sample_ui)
             sample_client "Matrix" 1 false [] (json_response 404 two_items));
      [reflexivity | simpl; lia].
  - apply (proj1 (proj2 (C6_http_errors_are_reported (L := plain_lib)
                           (answering "Matrix" (json_response 404 two_items)) sample_ui))
             "Matrix" (json_response 404 two_items));
      [reflexivity | discriminate | reflexivity | simpl; lia].
  - apply (proj2 (proj2 (C6_http_errors_are_reported (L := plain_lib)
                           (answering "Matrix" not_json) sample_ui))
             []
             (mk_exn JSONDecodeError "Expecting value: line 1 column 1 (char 0)")
             [Prompt "Ingresa el titulo a buscar: "; HttpGet matrix_request]);
      reflexivity.
Defined.

(** C6 as stated fails on a 304 answer: the status is not 2xx, yet the
    search returns the decoded payload, no [HTTPError] is raised and the
    presenter prints the no-results message. *)
Lemma C6_counterexample :
  let resp := json_response 304 (PyDict [("results", PyList [])]) in
  let w := answering "Matrix" resp in
  ~ (200 <= status_code resp < 300)
  /\ search_movies w sample_client "Matrix" 1 false []
     = (Ok (PyDict [("results", PyList [])]), [HttpGet matrix_request])
  /\ run (L := plain_lib) w sample_ui []
     = (Ok tt, [Prompt "Ingresa el titulo a buscar: ";
                HttpGet matrix_request;
                Print "No se encontraron resultados."]).
Proof.
  cbv zeta. split; [simpl; lia|]. split; reflexivity.
Qed.

(** C8 without a token, with a token argument, with a token in the
    environment, and in [__main__] without a token. *)
Lemma C8_witness :
  TMDBClient_init None "es-MX" ∅ = Raise (mk_exn RuntimeError missing_token)
  /\ (exists c, TMDBClient_init (Some "abc") "es-MX" ∅ = Ok c
                /\ bearer_token c <> ""
                /\ (Some "abc" = Some "abc" -> bearer_token c = "abc")
                /\ (Some "abc" = @None string -> bearer_token c = "abc"))
  /\ (exists c, TMDBClient_init None "es-MX" {[ "TMDB_BEARER_TOKEN" := "secret" ]} = Ok c
                /\ bearer_token c <> ""
                /\ (None = Some "secret" -> bearer_token c = "secret")
                /\ (@None string = None -> bearer_token c = "secret"))
  /\ main (L := plain_lib) no_token
     = (ExitUncaught (mk_exn RuntimeError missing_token), []).
Proof.
  split; [|split; [|split]].
  - apply (proj1 (C8_client_needs_a_credential (L := plain_lib) None "es-MX" ∅));
      reflexivity.
  - apply (proj1 (proj2 (C8_client_needs_a_credential (L := plain_lib)
                           (Some "abc") "es-MX" ∅)) "abc");
      [discriminate | left; reflexivity].
  - apply (proj1 (proj2 (C8_client_needs_a_credential (L := plain_lib)
                           None "es-MX" {[ "TMDB_BEARER_TOKEN" := "secret" ]}))
             "secret");
      [discriminate | right; reflexivity].
  - apply (proj2 (proj2 (C8_client_needs_a_credential (L := plain_lib) None "es-MX" ∅))
             no_token); reflexivity.
Defined.

(** C10 on the item [{"release_date": ""}]. *)
Lemma C10_witness :
  let m := {| id := PyNone; title := PyStr ""; original_title := PyStr "";
              release_date := PyStr ""; overview := PyStr "";
              popularity := 0%float; vote_average := 0%float;
              poster_path := PyNone |} in
  movie_of_item (L := plain_lib) (PyDict [("release_date", PyStr "")]) = Ok m
  /\ release_date m = PyStr ""
  /\ short_str (L := plain_lib) m = Ok (short_line (L := plain_lib) "s/f" m)
  /\ short_str (L := plain_lib) m = short_str (L := plain_lib) blank_movie.
Proof.
  cbv zeta. split; [reflexivity|].
  apply (C10_empty_release_date (L := plain_lib) [("release_date", PyStr "")]);
    reflexivity.
Defined.

(** * Further properties of the program *)

(** ** What a run sends and prints *)

Section Traces.
Context {L : PyLib}.

(** A search sends its one request whatever the answer. *)
Lemma search_movies_trace w c query page adult t :
  exists r, search_movies w c query page adult t =
            (r, (t ++ [HttpGet (search_request c query page adult)])%list).
Proof.
  unfold search_movies, Requests.get, bind, emit, lift.
  destruct (http w _) as [resp|e]; [|eauto].
  destruct (Requests.raise_for_status resp); eauto.
Qed.

Lemma find_by_title_trace w self title page t :
  exists r, find_by_title w self title page t =
            (r, (t ++ [HttpGet (search_request (client self) title page false)])%list).
Proof.
  unfold find_by_title, bind, lift.
  destruct (search_movies_trace w (client self) title page false t) as [[payload|e] ->];
    eauto.
Qed.

(** The loop over the records only prints. *)
Lemma print_movies_trace movies : forall i t,
  exists r ps, print_movies i movies t = (r, (t ++ ps)%list)
               /\ Forall (fun ev => is_print ev = true) ps.
Proof.
  induction movies as [|m movies IH]; intros i t; simpl.
  - exists (Ok tt), []. rewrite app_nil_r. split; [reflexivity | constructor].
  - unfold bind at 1, lift. destruct (short_str m) as [s|e].
    + unfold bind at 1, print, emit.
      destruct (IH (S i) (t ++ [Print (PyFormat.decimal_width 2 i ++ ". " ++ s)])%list)
        as (r & ps & -> & Hps).
      exists r, (Print (PyFormat.decimal_width 2 i ++ ". " ++ s) :: ps).
      rewrite <- app_assoc. split; [reflexivity | constructor; [reflexivity | exact Hps]].
    + exists (Raise e), []. rewrite app_nil_r. split; [reflexivity | constructor].
Qed.

(** The [try] block prompts once, then either only prints or sends the
    one search for the line typed and then only prints. *)
Lemma run_body_trace w self t :
  exists r evs,
    run_body w self t = (r, (t ++ Prompt "Ingresa el titulo a buscar: " :: evs)%list)
    /\ (Forall (fun ev => is_print ev = true) evs
        \/ exists title prints,
             stdin w = Ok title
             /\ PyString.strip title <> ""
             /\ evs = HttpGet (search_request (client (service self)) title 1 false)
                      :: prints
             /\ Forall (fun ev => is_print ev = true) prints).
Proof.
  destruct (stdin w) as [title|e] eqn:Hin.
  2:{ exists (Raise e), []. split; [|left; constructor].
      unfold run_body, input, bind, emit, lift. rewrite Hin. reflexivity. }
  rewrite (run_body_typed _ _ _ _ Hin).
  destruct (PyString.strip title) as [|c s] eqn:Hs.
  { exists (Ok tt), [Print "Debes ingresar un texto de busqueda."].
    split; [|left; repeat constructor].
    simpl. unfold print, emit. rewrite <- app_assoc. reflexivity. }
  change (negb (truthy (PyStr (String c s)))) with false. cbv iota.
  unfold bind at 1.
  destruct (find_by_title_trace w (service self) title 1
              (t ++ [Prompt "Ingresa el titulo a buscar: "])%list) as [[movies|e] ->].
  2:{ exists (Raise e), [HttpGet (search_request (client (service self)) title 1 false)].
      rewrite <- app_assoc. split; [reflexivity|]. right.
      exists title, []. split; [reflexivity|]. split; [rewrite Hs; discriminate|].
      split; [reflexivity | constructor]. }
  destruct movies as [|m movies].
  { exists (Ok tt), [HttpGet (search_request (client (service self)) title 1 false);
                    Print "No se encontraron resultados."].
    unfold print, emit. rewrite <- !app_assoc. split; [reflexivity|]. right.
    exists title, [Print "No se encontraron resultados."].
    split; [reflexivity|]. split; [rewrite Hs; discriminate|].
    split; [reflexivity | repeat constructor]. }
  unfold bind at 1, print at 1, emit. unfold bind at 1.
  match goal with |- context [print_movies 1 (m :: movies) ?t0] =>
    destruct (print_movies_trace (m :: movies) 1 t0) as (r & ps & -> & Hps)
  end.
  destruct r as [[]|e].
  - exists (Ok tt),
      (HttpGet (search_request (client (service self)) title 1 false)
       :: Print (PyString.nl ++ "Resultados para '" ++ title ++ "':" ++ PyString.nl)
       :: ps ++ [Print (PyString.nl ++ "(Primera pagina de resultados)")])%list.
    unfold print, emit. rewrite <- !app_assoc. simpl. split; [reflexivity|]. right.
    eexists title, _. split; [reflexivity|]. split; [rewrite Hs; discriminate|].
    split; [reflexivity|].
    constructor; [reflexivity|]. apply Forall_app. split; [exact Hps | repeat constructor].
  - exists (Raise e),
      (HttpGet (search_request (client (service self)) title 1 false)
       :: Print (PyString.nl ++ "Resultados para '" ++ title ++ "':" ++ PyString.nl)
       :: ps)%list.
    rewrite <- !app_assoc. simpl. split; [reflexivity|]. right.
    eexists title, _. split; [reflexivity|]. split; [rewrite Hs; discriminate|].
    split; [reflexivity|].
    constructor; [reflexivity | exact Hps].
Qed.

(** The shape of the trace of [run]: the handlers add at most a [print]. *)
Lemma run_trace w self t :
  exists r evs,
    run w self t = (r, (t ++ Prompt "Ingresa el titulo a buscar: " :: evs)%list)
    /\ (Forall (fun ev => is_print ev = true) evs
        \/ exists title prints,
             stdin w = Ok title
             /\ PyString.strip title <> ""
             /\ evs = HttpGet (search_request (client (service self)) title 1 false)
                      :: prints
             /\ Forall (fun ev => is_print ev = true) prints).
Proof.
  destruct (run_body_trace w self t) as (r & evs & E & Hshape).
  unfold run, try_except. rewrite E. destruct r as [u|e]; [eauto|].
  destruct (run_handlers e) as [k|] eqn:Hk; [|eauto].
  assert (exists line, k = print line) as [line ->].
  { unfold run_handlers in Hk. destruct (is_HTTPError _); [injection Hk as <-; eauto|].
    destruct (is_Exception _); [injection Hk as <-; eauto | discriminate]. }
  exists (Ok tt), (evs ++ [Print line])%list. unfold print, emit.
  rewrite <- app_assoc. split; [reflexivity|].
  destruct Hshape as [Hp | (title & prints & Hin & Hs & -> & Hp)].
  - left. apply Forall_app. split; [exact Hp | repeat constructor].
  - right. exists title, (prints ++ [Print line])%list.
    repeat split; try assumption.
    apply Forall_app. split; [exact Hp | repeat constructor].
Qed.

(** X2: a run prompts exactly once and then either only prints, or sends
    exactly one request, the search for the line as typed (page 1, adult
    titles excluded), and after it only prints: there is no second
    request, whatever the network answers. *)
Theorem X2_run_sends_at_most_one_request w self t :
  exists r evs,
    run w self t = (r, (t ++ Prompt "Ingresa el titulo a buscar: " :: evs)%list)
    /\ (Forall (fun ev => is_print ev = true) evs
        \/ exists title prints,
             stdin w = Ok title
             /\ PyString.strip title <> ""
             /\ evs = HttpGet (search_request (client (service self)) title 1 false)
                      :: prints
             /\ Forall (fun ev => is_print ev = true) prints).
Proof.
  destruct (run_trace w self t) as (r & evs & E & Hshape).
  exists r, evs. split; assumption.
Qed.

End Traces.

(** ** Outcomes of a run *)

Section Outcomes.
Context {L : PyLib}.

(** Past a non-blank line, [run_body] is the search followed by the output. *)
Lemma run_body_searching w self t title :
  stdin w = Ok title ->
  PyString.strip title <> "" ->
  run_body w self t =
  (movies <- find_by_title w (service self) title 1 ;;
   match movies with
   | [] => print "No se encontraron resultados."
   | _ =>
       print (PyString.nl ++ "Resultados para '" ++ title ++ "':" ++ PyString.nl) ;;
       print_movies 1 movies ;;
       print (PyString.nl ++ "(Primera pagina de resultados)")
   end)%io (t ++ [Prompt "Ingresa el titulo a buscar: "])%list.
Proof.
  intros Hin Hne. rewrite (run_body_typed _ _ _ _ Hin), (strip_truthy _ Hne).
  reflexivity.
Qed.

(** A search whose request the network fails raises that failure. *)
Lemma search_movies_network_error w c query page adult t e :
  http w (search_request c query page adult) = Raise e ->
  search_movies w c query page adult t =
  (Raise e, (t ++ [HttpGet (search_request c query page adult)])%list).
Proof.
  intros Hh. unfold search_movies, Requests.get, bind, emit, lift. rewrite Hh.
  reflexivity.
Qed.

(** X1: when the line typed is not blank and the answer is a mapping
    whose [results] is absent or an empty list, the run prompts, sends the
    search, prints the no-results message and returns normally. *)
Theorem X1_no_results_message w self title resp d :
  stdin w = Ok title ->
  PyString.strip title <> "" ->
  http w (search_request (client (service self)) title 1 false) = Ok resp ->
  ~ (400 <= status_code resp < 600) ->
  json_value resp = Some (PyDict d) ->
  dict_lookup "results" d = None \/ dict_lookup "results" d = Some (PyList []) ->
  run w self [] =
  (Ok tt, [Prompt "Ingresa el titulo a buscar: ";
           HttpGet (search_request (client (service self)) title 1 false);
           Print "No se encontraron resultados."]).
Proof.
  intros Hin Hne Hh Hs Hj Hr. unfold run, try_except.
  rewrite (run_body_searching _ _ _ _ Hin Hne).
  unfold bind at 1, find_by_title, bind at 1.
  rewrite (search_movies_payload _ _ _ _ _ _ _ _ Hh Hs Hj).
  unfold lift, movies_of_payload. simpl py_get. unfold dict_get.
  destruct Hr as [-> | ->]; reflexivity.
Qed.

(** X3: when the network fails the request with an exception deriving
    from [Exception] (a timeout, a refused connection), the run prints it
    after the generic prefix, or after the HTTP prefix if it is an
    [HTTPError], and returns normally; nothing is retried. *)
Theorem X3_network_failure_is_reported w self title e :
  stdin w = Ok title ->
  PyString.strip title <> "" ->
  http w (search_request (client (service self)) title 1 false) = Raise e ->
  is_Exception (exn_class_of e) = true ->
  run w self [] =
  (Ok tt, [Prompt "Ingresa el titulo a buscar: ";
           HttpGet (search_request (client (service self)) title 1 false);
           Print ((if is_HTTPError (exn_class_of e)
                   then "Error HTTP: " else "Ocurrio un error: ") ++ exn_str e)]).
Proof.
  intros Hin Hne Hh He.
  rewrite (run_handles w self [] e
             [Prompt "Ingresa el titulo a buscar: ";
              HttpGet (search_request (client (service self)) title 1 false)]).
  - reflexivity.
  - rewrite (run_body_searching _ _ _ _ Hin Hne).
    unfold bind at 1, find_by_title, bind at 1.
    rewrite (search_movies_network_error _ _ _ _ _ _ _ Hh). reflexivity.
  - exact He.
Qed.

(** X4: when reading the line fails, no request is sent; an exception
    deriving from [Exception] (end of input) is printed and the run
    returns normally, any other (a keyboard interrupt) leaves [run] with
    nothing printed. *)
Theorem X4_input_failure w self t e :
  stdin w = Raise e ->
  (is_Exception (exn_class_of e) = true ->
   run w self t =
   (Ok tt, (t ++ [Prompt "Ingresa el titulo a buscar: ";
                  Print ((if is_HTTPError (exn_class_of e)
                          then "Error HTTP: " else "Ocurrio un error: ")
                         ++ exn_str e)])%list))
  /\ (is_Exception (exn_class_of e) = false ->
      run w self t = (Raise e, (t ++ [Prompt "Ingresa el titulo a buscar: "])%list)).
Proof.
  intros Hin.
  assert (run_body w self t = (Raise e, (t ++ [Prompt "Ingresa el titulo a buscar: "])%list))
    as Hb by (unfold run_body, input, bind, emit, lift; rewrite Hin; reflexivity).
  split; intros He.
  - rewrite (run_handles _ _ _ _ _ Hb He), <- app_assoc. reflexivity.
  - unfold run, try_except, run_handlers. rewrite Hb, He.
    destruct (exn_class_of e); try discriminate He. reflexivity.
Qed.

(** X5: when the body decoded is not a mapping (a JSON array, a string, a
    number, null), the run reports the [AttributeError] of [payload.get]
    with the generic message and returns normally. *)
Theorem X5_payload_not_a_mapping w self title resp payload :
  stdin w = Ok title ->
  PyString.strip title <> "" ->
  http w (search_request (client (service self)) title 1 false) = Ok resp ->
  ~ (400 <= status_code resp < 600) ->
  json_value resp = Some payload ->
  (forall d, payload <> PyDict d) ->
  run w self [] =
  (Ok tt, [Prompt "Ingresa el titulo a buscar: ";
           HttpGet (search_request (client (service self)) title 1 false);
           Print ("Ocurrio un error: '" ++ type_name payload
                  ++ "' object has no attribute 'get'")]).
Proof.
  intros Hin Hne Hh Hs Hj Hp.
  rewrite (run_handles w self [] (no_attribute payload "get")
             [Prompt "Ingresa el titulo a buscar: ";
              HttpGet (search_request (client (service self)) title 1 false)]).
  - reflexivity.
  - rewrite (run_body_searching _ _ _ _ Hin Hne).
    unfold bind at 1, find_by_title, bind at 1.
    rewrite (search_movies_payload _ _ _ _ _ _ _ _ Hh Hs Hj).
    unfold lift, movies_of_payload.
    destruct payload; try reflexivity. exfalso. eapply Hp. reflexivity.
  - reflexivity.
Qed.

End Outcomes.

(** ** The credential *)

Section Credential.
Context {L : PyLib}.

(** X7: the constructor fails exactly when the token argument is [None]
    or empty and the environment variable is unset or empty; it then
    raises the missing-token [RuntimeError] and nothing else. *)
Theorem X7_empty_token_counts_as_missing token lang environ :
  ((token = None \/ token = Some "")
   /\ (environ !! "TMDB_BEARER_TOKEN" = None
       \/ environ !! "TMDB_BEARER_TOKEN" = Some "")
   <-> is_ok (TMDBClient_init token lang environ) = false)
  /\ forall e, TMDBClient_init token lang environ = Raise e ->
               e = mk_exn RuntimeError missing_token.
Proof.
  unfold TMDBClient_init. split.
  - split.
    + intros [[-> | ->] [-> | ->]]; reflexivity.
    + destruct token as [[|a s]|]; simpl or_else;
        try discriminate;
        (destruct (environ !! "TMDB_BEARER_TOKEN") as [[|b r]|]; simpl;
         [auto | discriminate | auto]).
  - intros e.
    destruct (or_else token (environ !! "TMDB_BEARER_TOKEN")) as [[|a s]|];
      [intros [= <-]; reflexivity | discriminate | intros [= <-]; reflexivity].
Qed.

(** X8: a client that was built holds a non-empty token, which is the
    argument when that is a non-empty string and the environment's value
    otherwise; it keeps the language given and its session sends the token
    as [Authorization: Bearer <token>] with [accept: application/json]. *)
Theorem X8_client_fields token lang0 environ c :
  TMDBClient_init token lang0 environ = Ok c ->
  bearer_token c <> ""
  /\ (forall tk, token = Some tk -> tk <> "" -> bearer_token c = tk)
  /\ (token = None \/ token = Some "" ->
      environ !! "TMDB_BEARER_TOKEN" = Some (bearer_token c))
  /\ lang c = lang0
  /\ session_headers c = [("Authorization", "Bearer " ++ bearer_token c);
                          ("accept", "application/json")].
Proof.
  unfold TMDBClient_init.
  destruct (or_else token (environ !! "TMDB_BEARER_TOKEN")) as [[|a s]|] eqn:E;
    [discriminate | | discriminate].
  intros [= <-]. simpl. split; [discriminate|]. split; [|split].
  - intros tk -> Htk. destruct tk as [|b r]; [contradiction|].
    simpl in E. congruence.
  - intros [-> | ->]; simpl in E; exact E.
  - split; reflexivity.
Qed.

(** X9: every request the program sends goes to the search endpoint with a
    timeout of 15, asks for the line typed, page 1, no adult titles and the
    language [es-MX], and carries as bearer token the non-empty value of
    [TMDB_BEARER_TOKEN] found in the environment or, when the environment
    has none, in the [.env] file. *)
Theorem X9_requests_of_main w req :
  In (HttpGet req) (snd (main w)) ->
  exists tk title,
    tk <> ""
    /\ (os_environ w !! "TMDB_BEARER_TOKEN" = Some tk
        \/ (os_environ w !! "TMDB_BEARER_TOKEN" = None
            /\ dotenv_file w !! "TMDB_BEARER_TOKEN" = Some tk))
    /\ stdin w = Ok title
    /\ req = {| req_url := TMDB_SEARCH_URL;
                req_params := [("query", PyStr title);
                               ("include_adult", PyStr "false");
                               ("language", PyStr "es-MX");
                               ("page", PyInt 1)];
                req_headers := [("Authorization", "Bearer " ++ tk);
                                ("accept", "application/json")];
                req_timeout := 15 |}.
Proof.
  unfold main.
  unfold main, TMDBClient_init. rewrite or_else_missing.
  destruct (load_dotenv w !! "TMDB_BEARER_TOKEN") as [[|a tk]|] eqn:Henv;
    [intros [] | | intros []].
  match goal with |- context [run w ?ui []] => set (app := ui) end.
  destruct (run_trace w app []) as (r & evs & E & Hshape).
  rewrite E. intros Hin.
  assert (In (HttpGet req) (Prompt "Ingresa el titulo a buscar: " :: evs)) as Hin'.
  { destruct r; exact Hin. }
  clear Hin E. destruct Hin' as [Hin | Hin]; [discriminate|].
  assert (forall l, Forall (fun ev => is_print ev = true) l -> ~ In (HttpGet req) l)
    as Hnp.
  { intros l Hl Hreq. rewrite Forall_forall in Hl.
    apply list_elem_of_In in Hreq. specialize (Hl _ Hreq). discriminate. }
  destruct Hshape as [Hp | (title & prints & Hstd & _ & -> & Hp)];
    [exfalso; exact (Hnp _ Hp Hin)|].
  destruct Hin as [Hin | Hin]; [|exfalso; exact (Hnp _ Hp Hin)].
  injection Hin as <-.
  exists (String a tk), title. split; [discriminate|]. split.
  - unfold load_dotenv in Henv. apply lookup_union_Some_raw in Henv. exact Henv.
  - split; [exact Hstd | reflexivity].
Qed.

End Credential.

(** ** Conversion of the payload *)

Section Conversion.
Context {L : PyLib}.

Lemma movie_of_item_ok_iff item :
  is_ok (movie_of_item item) = item_convertible item.
Proof.
  destruct item as [| | | | |l|d]; try reflexivity.
  rewrite movie_of_item_dict. simpl item_convertible.
  destruct (py_float (dict_get d "popularity" _)); [|reflexivity].
  destruct (py_float (dict_get d "vote_average" _)); reflexivity.
Qed.

(** The loop stops at the first item that cannot be converted, and what
    was built before it is lost. *)
Lemma collect_first_failure good : forall bad rest e movies,
  Forall (fun it => item_convertible it = true) good ->
  movie_of_item bad = Raise e ->
  collect (good ++ bad :: rest) movies = Raise e.
Proof.
  induction good as [|it good IH]; intros bad rest e movies Hg Hb; simpl.
  - rewrite Hb. reflexivity.
  - inversion Hg as [|? ? Hit Hgood]; subst.
    destruct (movie_of_item_convertible _ Hit) as [m ->]. simpl.
    apply IH; assumption.
Qed.

Lemma collect_ok_iff items : forall movies,
  is_ok (collect items movies) = forallb item_convertible items.
Proof.
  induction items as [|it items IH]; intros movies; simpl; [reflexivity|].
  rewrite <- movie_of_item_ok_iff.
  destruct (movie_of_item it) as [m|e]; simpl; [apply IH | reflexivity].
Qed.

(** X10: on a payload whose [results] is a list, [find_by_title] returns a
    list exactly when every item is a mapping with convertible numbers;
    otherwise it raises what the first offending item raises and returns
    none of the records built before it. *)
Theorem X10_all_items_or_nothing w self title page t t' d items :
  search_movies w (client self) title page false t = (Ok (PyDict d), t') ->
  dict_lookup "results" d = Some (PyList items) ->
  is_ok (fst (find_by_title w self title page t)) = forallb item_convertible items
  /\ forall good bad rest e,
       items = (good ++ bad :: rest)%list ->
       Forall (fun it => item_convertible it = true) good ->
       movie_of_item bad = Raise e ->
       find_by_title w self title page t = (Raise e, t').
Proof.
  intros Hs Hr.
  rewrite (find_by_title_payload _ _ _ _ _ _ _ Hs), (movies_of_payload_list _ _ Hr).
  split.
  - apply collect_ok_iff.
  - intros good bad rest e -> Hg Hb.
    rewrite (collect_first_failure _ _ _ _ _ Hg Hb). reflexivity.
Qed.

(** X11: a [results] field of another iterable type is iterated all the
    same: an empty string or an empty mapping gives an empty list, while a
    non-empty string, a non-empty mapping or a list starting with
    something that is not a mapping fails with the [AttributeError] of
    [item.get]. *)
Theorem X11_results_of_other_types w self title page t t' d v :
  search_movies w (client self) title page false t = (Ok (PyDict d), t') ->
  dict_lookup "results" d = Some v ->
  (v = PyStr "" \/ v = PyDict [] -> find_by_title w self title page t = (Ok [], t'))
  /\ ((exists c s, v = PyStr (String c s))
      \/ (exists k x rest, v = PyDict ((k, x) :: rest))
      \/ (exists x rest, v = PyList (x :: rest) /\ forall e, x <> PyDict e) ->
      exists e, find_by_title w self title page t = (Raise e, t')
                /\ exn_class_of e = AttributeError).
Proof.
  intros Hs Hr. rewrite (find_by_title_payload _ _ _ _ _ _ _ Hs).
  unfold movies_of_payload. simpl py_get. unfold dict_get. rewrite Hr. split.
  - intros [-> | ->]; reflexivity.
  - intros [(c & s & ->) | [(k & x & rest & ->) | (x & rest & -> & Hx)]].
    + eexists. split; reflexivity.
    + eexists. split; reflexivity.
    + destruct x; try (eexists; split; reflexivity).
      exfalso. eapply Hx. reflexivity.
Qed.

(** X12: a field that the item has is stored as it is, whatever its type:
    the defaults apply to absent keys only, so an explicit null [title]
    gives a record whose [title] is [None]; the two numbers are stored as
    [float] converts them, a float unchanged. *)
Theorem X12_present_fields_are_kept d m :
  movie_of_item (PyDict d) = Ok m ->
  (forall v, dict_lookup "id" d = Some v -> id m = v)
  /\ (forall v, dict_lookup "title" d = Some v -> title m = v)
  /\ (forall v, dict_lookup "original_title" d = Some v -> original_title m = v)
  /\ (forall v, dict_lookup "release_date" d = Some v -> release_date m = v)
  /\ (forall v, dict_lookup "overview" d = Some v -> overview m = v)
  /\ (forall v, dict_lookup "poster_path" d = Some v -> poster_path m = v)
  /\ (forall v, dict_lookup "popularity" d = Some v -> py_float v = Ok (popularity m))
  /\ (forall v, dict_lookup "vote_average" d = Some v -> py_float v = Ok (vote_average m))
  /\ (forall f, dict_lookup "popularity" d = Some (PyFloat f) -> popularity m = f)
  /\ (forall f, dict_lookup "vote_average" d = Some (PyFloat f) -> vote_average m = f).
Proof.
  intros Hm. apply movie_of_item_inv in Hm
    as (d' & [= <-] & Hp & Hv & Hid & Ht & Ho & Hd & Hov & Hpp).
  unfold dict_get in *.
  repeat split; intros v E; rewrite E in *; simpl in *; congruence.
Qed.

(** X13: a [popularity] that is present but null, a list or a mapping
    makes the construction fail with a [TypeError], and so does such a
    [vote_average] when [popularity] is absent: the default [0.0] does not
    stand in for a present value. *)
Theorem X13_null_number_is_an_error d v :
  match v with PyNone | PyList _ | PyDict _ => True | _ => False end ->
  (dict_lookup "popularity" d = Some v ->
   exists e, movie_of_item (PyDict d) = Raise e /\ exn_class_of e = TypeError)
  /\ (dict_lookup "popularity" d = None -> dict_lookup "vote_average" d = Some v ->
      exists e, movie_of_item (PyDict d) = Raise e /\ exn_class_of e = TypeError).
Proof.
  intros Hv. rewrite movie_of_item_dict. unfold dict_get. split.
  - intros ->. destruct v; try contradiction; eexists; split; reflexivity.
  - intros -> ->. destruct v; try contradiction; eexists; split; reflexivity.
Qed.

End Conversion.

(** ** The lines printed *)

Section Lines.
Context {L : PyLib}.

Lemma imap_numbered_cons i s lines :
  imap (numbered i) (s :: lines) =
  Print (PyFormat.decimal_width 2 i ++ ". " ++ s) :: imap (numbered (S i)) lines.
Proof.
  rewrite imap_cons. unfold numbered at 1. rewrite Nat.add_0_r. f_equal.
  apply imap_ext. intros k x _. unfold numbered. simpl.
  rewrite Nat.add_succ_r. reflexivity.
Qed.

(** When [short_str] succeeds on every record, the loop prints one line
    per record, in order, numbered from [i]. *)
Lemma print_movies_lines movies : forall lines i t,
  Forall2 (fun m s => short_str m = Ok s) movies lines ->
  print_movies i movies t = (Ok tt, (t ++ imap (numbered i) lines)%list).
Proof.
  induction movies as [|m movies IH]; intros lines i t H;
    inversion H as [|? s ? rest Hm Hrest]; subst; simpl print_movies.
  - simpl. rewrite app_nil_r. reflexivity.
  - unfold bind at 1, lift. rewrite Hm. unfold bind at 1, print, emit.
    rewrite (IH _ _ _ Hrest), imap_numbered_cons, <- app_assoc. reflexivity.
Qed.

(** When [short_str] fails on a record, the lines of the records before it
    are already printed. *)
Lemma print_movies_partial good : forall lines bad rest e i t,
  Forall2 (fun m s => short_str m = Ok s) good lines ->
  short_str bad = Raise e ->
  print_movies i (good ++ bad :: rest) t = (Raise e, (t ++ imap (numbered i) lines)%list).
Proof.
  induction good as [|m good IH]; intros lines bad rest e i t H Hb;
    inversion H as [|? s ? more Hm Hmore]; subst;
    rewrite <- ?app_comm_cons; simpl print_movies.
  - unfold bind at 1, lift. rewrite Hb. simpl. rewrite app_nil_r. reflexivity.
  - unfold bind at 1, lift. rewrite Hm. unfold bind at 1, print, emit.
    rewrite (IH _ _ _ _ _ _ Hmore Hb), imap_numbered_cons, <- app_assoc. reflexivity.
Qed.

(** [short_str] fails with an [AttributeError] only. *)
Lemma short_str_raises m e :
  short_str m = Raise e -> e = no_attribute (release_date m) "split".
Proof.
  unfold short_str. destruct (truthy (release_date m)); [|discriminate].
  destruct (release_date m); simpl; try discriminate; intros [= <-]; reflexivity.
Qed.

(** X14: when the search returns at least one record and [short_str]
    succeeds on all of them, the run prints the header naming the line
    typed, then one line per record in the order returned, numbered from
    1 in a field of width 2, then the first-page note, and returns
    normally. *)
Theorem X14_header_lines_footer w self title t1 m movies lines :
  stdin w = Ok title ->
  PyString.strip title <> "" ->
  find_by_title w (service self) title 1 [Prompt "Ingresa el titulo a buscar: "]
  = (Ok (m :: movies), t1) ->
  Forall2 (fun m s => short_str m = Ok s) (m :: movies) lines ->
  run w self [] =
  (Ok tt,
   (t1 ++ Print (PyString.nl ++ "Resultados para '" ++ title ++ "':" ++ PyString.nl)
       :: imap (fun k s => Print (PyFormat.decimal_width 2 (1 + k) ++ ". " ++ s)) lines
       ++ [Print (PyString.nl ++ "(Primera pagina de resultados)")])%list)
  /\ length lines = S (length movies).
Proof.
  intros Hin Hne Hf Hl. split; [|symmetry; exact (Forall2_length _ _ _ Hl)].
  unfold run, try_except. rewrite (run_body_searching _ _ _ _ Hin Hne).
  unfold bind at 1. simpl app. rewrite Hf.
  unfold bind at 1, print at 1, emit. unfold bind at 1.
  rewrite (print_movies_lines _ _ _ _ Hl). unfold print, emit.
  rewrite <- !app_assoc. reflexivity.
Qed.

(** X15: when [short_str] fails on a record (its [release_date] is a
    non-empty value that is not text), the header and the lines of the
    records before it stay printed, the failure is printed with the
    generic message, the first-page note is not printed, and the run
    returns normally. *)
Theorem X15_failure_after_partial_output w self title t1 good bad rest lines e :
  stdin w = Ok title ->
  PyString.strip title <> "" ->
  find_by_title w (service self) title 1 [Prompt "Ingresa el titulo a buscar: "]
  = (Ok (good ++ bad :: rest)%list, t1) ->
  Forall2 (fun m s => short_str m = Ok s) good lines ->
  short_str bad = Raise e ->
  run w self [] =
  (Ok tt,
   (t1 ++ Print (PyString.nl ++ "Resultados para '" ++ title ++ "':" ++ PyString.nl)
       :: imap (fun k s => Print (PyFormat.decimal_width 2 (1 + k) ++ ". " ++ s)) lines
       ++ [Print ("Ocurrio un error: '" ++ type_name (release_date bad)
                  ++ "' object has no attribute 'split'")])%list).
Proof.
  intros Hin Hne Hf Hl Hb.
  pose proof (short_str_raises _ _ Hb) as ->.
  rewrite (run_handles w self [] (no_attribute (release_date bad) "split")
             (t1 ++ Print (PyString.nl ++ "Resultados para '" ++ title ++ "':"
                           ++ PyString.nl)
                 :: imap (numbered 1) lines)%list).
  - simpl. rewrite <- app_assoc. reflexivity.
  - rewrite (run_body_searching _ _ _ _ Hin Hne).
    unfold bind at 1. simpl app. rewrite Hf.
    destruct (good ++ bad :: rest)%list as [|x xs] eqn:E;
      [destruct good; discriminate E|]. rewrite <- E.
    unfold bind at 1, print at 1, emit. unfold bind at 1.
    rewrite (print_movies_partial _ _ _ _ _ _ _ Hl Hb), <- app_assoc. reflexivity.
  - reflexivity.
Qed.

(** X16: [short_str] renders ["s/f"] for every [release_date] that Python
    counts as false (None, the empty string, zero, False, an empty list or
    mapping), and fails with the [AttributeError] of [split] for every
    other value that is not text. *)
Theorem X16_dates_that_are_not_text m :
  (truthy (release_date m) = false -> short_str m = Ok (short_line "s/f" m))
  /\ (truthy (release_date m) = true ->
      (forall d, release_date m <> PyStr d) ->
      short_str m = Raise (no_attribute (release_date m) "split"))
  /\ (In (release_date m)
         [PyNone; PyStr ""; PyInt 0; PyBool false; PyList []; PyDict [];
          PyFloat 0%float] ->
      truthy (release_date m) = false).
Proof.
  unfold short_str. split; [|split].
  - intros ->. reflexivity.
  - intros -> Hd. destruct (release_date m); try reflexivity.
    exfalso. eapply Hd. reflexivity.
  - simpl. intros [<- | [<- | [<- | [<- | [<- | [<- | [<- | []]]]]]]]; reflexivity.
Qed.

End Lines.

(** ** When a request is sent *)

Section Sending.
Context {L : PyLib}.

(** What follows the search in the [try] block only prints. *)
Lemma output_trace title movies t :
  exists r ps,
    (match movies with
     | [] => print "No se encontraron resultados."
     | _ =>
         print (PyString.nl ++ "Resultados para '" ++ title ++ "':" ++ PyString.nl) ;;
         print_movies 1 movies ;;
         print (PyString.nl ++ "(Primera pagina de resultados)")
     end)%io t = (r, (t ++ ps)%list).
Proof.
  destruct movies as [|m movies]; [unfold print, emit; eauto|].
  unfold bind at 1, print at 1, emit. unfold bind at 1.
  match goal with |- context [print_movies 1 (m :: movies) ?t0] =>
    destruct (print_movies_trace (m :: movies) 1 t0) as (r & ps & -> & _)
  end.
  destruct r as [[]|e]; unfold print, emit; rewrite <- ?app_assoc; eauto.
Qed.

(** After a non-blank line the trace of [run] goes on with the search. *)
Lemma run_searching_trace w self t title :
  stdin w = Ok title ->
  PyString.strip title <> "" ->
  exists r evs,
    run w self t =
    (r, (t ++ Prompt "Ingresa el titulo a buscar: "
           :: HttpGet (search_request (client (service self)) title 1 false)
           :: evs)%list).
Proof.
  intros Hin Hne. unfold run, try_except.
  rewrite (run_body_searching _ _ _ _ Hin Hne). unfold bind at 1.
  destruct (find_by_title_trace w (service self) title 1
              (t ++ [Prompt "Ingresa el titulo a buscar: "])%list) as [[movies|e] ->].
  - match goal with |- context [(match movies with [] => _ | _ => _ end) ?t0] =>
      destruct (output_trace title movies t0) as (r & ps & ->)
    end.
    destruct r as [u|e].
    + exists (Ok u), ps. rewrite <- !app_assoc. reflexivity.
    + destruct (run_handlers e) as [k|] eqn:Hk.
      * assert (exists line, k = print line) as [line ->].
        { unfold run_handlers in Hk.
          destruct (is_HTTPError _); [injection Hk as <-; eauto|].
          destruct (is_Exception _); [injection Hk as <-; eauto | discriminate]. }
        exists (Ok tt), (ps ++ [Print line])%list. unfold print, emit.
        rewrite <- !app_assoc. reflexivity.
      * exists (Raise e), ps. rewrite <- !app_assoc. reflexivity.
  - destruct (run_handlers e) as [k|] eqn:Hk.
    + assert (exists line, k = print line) as [line ->].
      { unfold run_handlers in Hk.
        destruct (is_HTTPError _); [injection Hk as <-; eauto|].
        destruct (is_Exception _); [injection Hk as <-; eauto | discriminate]. }
      exists (Ok tt), [Print line]. unfold print, emit.
      rewrite <- !app_assoc. reflexivity.
    + exists (Raise e), []. rewrite <- !app_assoc. reflexivity.
Qed.

(** X17: once a line has been read, the run sends a request exactly when
    the line holds a character that is not whitespace. *)
Theorem X17_request_iff_not_blank w self title :
  stdin w = Ok title ->
  ((exists req, In (HttpGet req) (snd (run w self [])))
   <-> PyString.all_chars PyString.isspace title = false).
Proof.
  intros Hin. split.
  - intros [req Hreq].
    destruct (PyString.all_chars PyString.isspace title) eqn:Hb; [|reflexivity].
    exfalso.
    assert (PyString.strip title = "") as Hs by (apply strip_empty_iff; exact Hb).
    revert Hreq. unfold run, try_except.
    rewrite (run_body_typed _ _ _ _ Hin), Hs. simpl.
    intros [H | [H | []]]; discriminate H.
  - intros Hb.
    assert (PyString.strip title <> "") as Hne.
    { intros Hs. apply strip_empty_iff in Hs. congruence. }
    destruct (run_searching_trace w self [] title Hin Hne) as (r & evs & ->).
    eexists. simpl. right. left. reflexivity.
Qed.

(** X18: when the body of an answer outside 400..599 is not JSON, the run
    prints the decoder's message after the generic prefix and returns
    normally. *)
Theorem X18_body_not_json w self title resp :
  stdin w = Ok title ->
  PyString.strip title <> "" ->
  http w (search_request (client (service self)) title 1 false) = Ok resp ->
  ~ (400 <= status_code resp < 600) ->
  json_value resp = None ->
  run w self [] =
  (Ok tt, [Prompt "Ingresa el titulo a buscar: ";
           HttpGet (search_request (client (service self)) title 1 false);
           Print ("Ocurrio un error: " ++ json_error resp)]).
Proof.
  intros Hin Hne Hh Hs Hj.
  rewrite (run_handles w self [] (mk_exn JSONDecodeError (json_error resp))
             [Prompt "Ingresa el titulo a buscar: ";
              HttpGet (search_request (client (service self)) title 1 false)]).
  - reflexivity.
  - rewrite (run_body_searching _ _ _ _ Hin Hne).
    unfold bind at 1, find_by_title, bind at 1, search_movies, bind at 1,
      Requests.get, bind at 1, emit, lift.
    rewrite Hh. unfold bind at 1, Requests.raise_for_status.
    destruct ((400 <=? status_code resp) && (status_code resp <? 500)) eqn:E4;
      [apply andb_true_iff in E4; lia|].
    destruct ((500 <=? status_code resp) && (status_code resp <? 600)) eqn:E5;
      [apply andb_true_iff in E5; lia|].
    unfold Requests.json. rewrite Hj. reflexivity.
  - reflexivity.
Qed.

(** X19: a variable that the environment sets to the empty string is not
    replaced by the [.env] file, so the constructor finds no token and the
    process ends on the missing-token error, whatever the file holds. *)
Theorem X19_empty_variable_hides_dotenv w :
  os_environ w !! "TMDB_BEARER_TOKEN" = Some "" ->
  main w = (ExitUncaught (mk_exn RuntimeError missing_token), []).
Proof.
  intros He. unfold main, TMDBClient_init, load_dotenv. rewrite or_else_missing.
  rewrite (lookup_union_Some_l _ (dotenv_file w) _ _ He). reflexivity.
Qed.

End Sending.

(** * The further properties on concrete runs *)

(** X1 on the answer [{}]. *)
Lemma X1_witness :
  run (L := plain_lib) (answering "Matrix" (json_response 200 (PyDict []))) sample_ui []
  = (Ok tt, [the_prompt; HttpGet matrix_request; Print "No se encontraron resultados."]).
Proof.
  apply (X1_no_results_message (L := plain_lib)
           (answering "Matrix" (json_response 200 (PyDict []))) sample_ui "Matrix"
           (json_response 200 (PyDict [])) []).
  - reflexivity.
  - discriminate.
  - reflexivity.
  - simpl. lia.
  - reflexivity.
  - left. reflexivity.
Defined.

(** X3 on a timeout. *)
Lemma X3_witness :
  run (L := plain_lib) (unreachable (mk_exn Timeout "timed out")) sample_ui []
  = (Ok tt, [the_prompt; HttpGet matrix_request; Print "Ocurrio un error: timed out"]).
Proof.
  apply (X3_network_failure_is_reported (L := plain_lib)
           (unreachable (mk_exn Timeout "timed out")) sample_ui "Matrix"
           (mk_exn Timeout "timed out")).
  - reflexivity.
  - discriminate.
  - reflexivity.
  - reflexivity.
Defined.

(** X4 on the end of input and on a keyboard interrupt. *)
Lemma X4_witness :
  run (L := plain_lib) (interrupted (mk_exn EOFError "EOF when reading a line"))
    sample_ui []
  = (Ok tt, [the_prompt; Print "Ocurrio un error: EOF when reading a line"])
  /\ run (L := plain_lib) (interrupted (mk_exn KeyboardInterrupt "")) sample_ui []
     = (Raise (mk_exn KeyboardInterrupt ""), [the_prompt]).
Proof.
  split.
  - apply (proj1 (X4_input_failure (L := plain_lib)
                    (interrupted (mk_exn EOFError "EOF when reading a line"))
                    sample_ui [] (mk_exn EOFError "EOF when reading a line") eq_refl)).
    reflexivity.
  - apply (proj2 (X4_input_failure (L := plain_lib)
                    (interrupted (mk_exn KeyboardInterrupt ""))
                    sample_ui [] (mk_exn KeyboardInterrupt "") eq_refl)).
    reflexivity.
Defined.

(** X5 on the answer [[]]. *)
Lemma X5_witness :
  run (L := plain_lib) (answering "Matrix" (json_response 200 (PyList []))) sample_ui []
  = (Ok tt, [the_prompt; HttpGet matrix_request;
             Print "Ocurrio un error: 'list' object has no attribute 'get'"]).
Proof.
  apply (X5_payload_not_a_mapping (L := plain_lib)
           (answering "Matrix" (json_response 200 (PyList []))) sample_ui "Matrix"
           (json_response 200 (PyList [])) (PyList [])).
  - reflexivity.
  - discriminate.
  - reflexivity.
  - simpl. lia.
  - reflexivity.
  - discriminate.
Defined.

(** X7 with an empty argument and an empty variable. *)
Lemma X7_witness :
  is_ok (TMDBClient_init (Some "") "es-MX" {[ "TMDB_BEARER_TOKEN" := "" ]}) = false
  /\ forall e,
       TMDBClient_init (Some "") "es-MX" {[ "TMDB_BEARER_TOKEN" := "" ]} = Raise e ->
       e = mk_exn RuntimeError missing_token.
Proof.
  split.
  - apply (proj1 (proj1 (X7_empty_token_counts_as_missing
                           (Some "") "es-MX" {[ "TMDB_BEARER_TOKEN" := "" ]}))).
    split; right; reflexivity.
  - exact (proj2 (X7_empty_token_counts_as_missing
                    (Some "") "es-MX" {[ "TMDB_BEARER_TOKEN" := "" ]})).
Defined.

(** X8 on the sample client, built from the environment. *)
Lemma X8_witness :
  bearer_token sample_client <> ""
  /\ (forall tk, @None string = Some tk -> tk <> "" -> bearer_token sample_client = tk)
  /\ (@None string = None \/ @None string = Some "" ->
      ({[ "TMDB_BEARER_TOKEN" := "secret" ]} : gmap string string)
        !! "TMDB_BEARER_TOKEN" = Some (bearer_token sample_client))
  /\ lang sample_client = "es-MX"
  /\ session_headers sample_client
     = [("Authorization", "Bearer " ++ bearer_token sample_client);
        ("accept", "application/json")].
Proof.
  apply (X8_client_fields None "es-MX" {[ "TMDB_BEARER_TOKEN" := "secret" ]}
           sample_client).
  reflexivity.
Defined.

(** X9 in the world whose token is in the [.env] file. *)
Lemma X9_witness :
  exists tk title,
    tk <> ""
    /\ (os_environ dotenv_only !! "TMDB_BEARER_TOKEN" = Some tk
        \/ (os_environ dotenv_only !! "TMDB_BEARER_TOKEN" = None
            /\ dotenv_file dotenv_only !! "TMDB_BEARER_TOKEN" = Some tk))
    /\ stdin dotenv_only = Ok title
    /\ {| req_url := TMDB_SEARCH_URL;
          req_params := [("query", PyStr "Matrix"); ("include_adult", PyStr "false");
                         ("language", PyStr "es-MX"); ("page", PyInt 1)];
          req_headers := [("Authorization", "Bearer filetoken");
                          ("accept", "application/json")];
          req_timeout := 15 |}
       = {| req_url := TMDB_SEARCH_URL;
            req_params := [("query", PyStr title); ("include_adult", PyStr "false");
                           ("language", PyStr "es-MX"); ("page", PyInt 1)];
            req_headers := [("Authorization", "Bearer " ++ tk);
                            ("accept", "application/json")];
            req_timeout := 15 |}.
Proof.
  apply (X9_requests_of_main (L := plain_lib) dotenv_only).
  vm_compute. right. left. reflexivity.
Defined.

(** X10 on the Matrix item followed by an item with a null [popularity]. *)
Lemma X10_witness :
  let w := answering "Matrix"
             (json_response 200
                (PyDict [("results", PyList [matrix_item; null_popularity_item])])) in
  is_ok (fst (find_by_title (L := plain_lib) w (service sample_ui) "Matrix" 1 []))
  = forallb (item_convertible (L := plain_lib)) [matrix_item; null_popularity_item]
  /\ find_by_title (L := plain_lib) w (service sample_ui) "Matrix" 1 []
     = (Raise (mk_exn TypeError
                 "float() argument must be a string or a real number, not 'NoneType'"),
        [HttpGet matrix_request]).
Proof.
  cbv zeta.
  pose proof (X10_all_items_or_nothing (L := plain_lib)
                (answering "Matrix"
                   (json_response 200
                      (PyDict [("results", PyList [matrix_item; null_popularity_item])])))
                (service sample_ui) "Matrix" 1 [] [HttpGet matrix_request]
                [("results", PyList [matrix_item; null_popularity_item])]
                [matrix_item; null_popularity_item] eq_refl eq_refl) as [Hiff Hfirst].
  split; [exact Hiff|].
  apply (Hfirst [matrix_item] null_popularity_item []);
    [reflexivity | repeat constructor | reflexivity].
Defined.

(** X11 on [{"results": ""}] and on [{"results": "ab"}]. *)
Lemma X11_witness :
  find_by_title (L := plain_lib)
    (answering "Matrix" (json_response 200 (PyDict [("results", PyStr "")])))
    (service sample_ui) "Matrix" 1 [] = (Ok [], [HttpGet matrix_request])
  /\ exists e,
       find_by_title (L := plain_lib)
         (answering "Matrix" (json_response 200 (PyDict [("results", PyStr "ab")])))
         (service sample_ui) "Matrix" 1 [] = (Raise e, [HttpGet matrix_request])
       /\ exn_class_of e = AttributeError.
Proof.
  split.
  - apply (proj1 (X11_results_of_other_types (L := plain_lib)
                    (answering "Matrix" (json_response 200 (PyDict [("results", PyStr "")])))
                    (service sample_ui) "Matrix" 1 [] [HttpGet matrix_request]
                    [("results", PyStr "")] (PyStr "") eq_refl eq_refl)).
    left. reflexivity.
  - apply (proj2 (X11_results_of_other_types (L := plain_lib)
                    (answering "Matrix"
                       (json_response 200 (PyDict [("results", PyStr "ab")])))
                    (service sample_ui) "Matrix" 1 [] [HttpGet matrix_request]
                    [("results", PyStr "ab")] (PyStr "ab") eq_refl eq_refl)).
    left. exists "a"%char, "b". reflexivity.
Defined.

(** X12 on the item [{"title": null, "popularity": 23.0}]. *)
Lemma X12_witness :
  let d := [("title", PyNone); ("popularity", PyFloat 23%float)] in
  let m := {| id := PyNone; title := PyNone; original_title := PyStr "";
              release_date := PyNone; overview := PyStr "";
              popularity := 23%float; vote_average := 0%float;
              poster_path := PyNone |} in
  movie_of_item (L := plain_lib) (PyDict d) = Ok m
  /\ title m = PyNone
  /\ popularity m = 23%float.
Proof.
  cbv zeta. split; [reflexivity|].
  destruct (X12_present_fields_are_kept (L := plain_lib)
              [("title", PyNone); ("popularity", PyFloat 23%float)] _ eq_refl)
    as (_ & Ht & _ & _ & _ & _ & _ & _ & Hp & _).
  split; [exact (Ht PyNone eq_refl) | exact (Hp 23%float eq_refl)].
Defined.

(** X13 on the item [{"popularity": null}] and on [{"vote_average": null}]. *)
Lemma X13_witness :
  (exists e, movie_of_item (L := plain_lib) null_popularity_item = Raise e
             /\ exn_class_of e = TypeError)
  /\ exists e, movie_of_item (L := plain_lib) (PyDict [("vote_average", PyNone)]) = Raise e
               /\ exn_class_of e = TypeError.
Proof.
  split.
  - apply (proj1 (X13_null_number_is_an_error (L := plain_lib)
                    [("popularity", PyNone)] PyNone I)).
    reflexivity.
  - apply (proj2 (X13_null_number_is_an_error (L := plain_lib)
                    [("vote_average", PyNone)] PyNone I)); reflexivity.
Defined.

(** X14 on the answer with the Matrix item alone. *)
Lemma X14_witness :
  run (L := plain_lib)
    (answering "Matrix" (json_response 200 (PyDict [("results", PyList [matrix_item])])))
    sample_ui []
  = (Ok tt,
     ([the_prompt; HttpGet matrix_request]
      ++ Print (PyString.nl ++ "Resultados para '" ++ "Matrix" ++ "':" ++ PyString.nl)
         :: imap (fun k s => Print (PyFormat.decimal_width 2 (1 + k) ++ ". " ++ s))
              [matrix_line]
         ++ [Print (PyString.nl ++ "(Primera pagina de resultados)")])%list)
  /\ length [matrix_line] = 1%nat.
Proof.
  apply (X14_header_lines_footer (L := plain_lib)
           (answering "Matrix"
              (json_response 200 (PyDict [("results", PyList [matrix_item])])))
           sample_ui "Matrix" [the_prompt; HttpGet matrix_request]
           matrix_movie [] [matrix_line]).
  - reflexivity.
  - discriminate.
  - reflexivity.
  - repeat constructor.
Defined.

(** X15 on the Matrix item followed by an item whose date is the number
    1999: the Matrix line is printed, then the failure. *)
Lemma X15_witness :
  run (L := plain_lib)
    (answering "Matrix"
       (json_response 200 (PyDict [("results", PyList [matrix_item; numeric_date_item])])))
    sample_ui []
  = (Ok tt,
     ([the_prompt; HttpGet matrix_request]
      ++ Print (PyString.nl ++ "Resultados para '" ++ "Matrix" ++ "':" ++ PyString.nl)
         :: imap (fun k s => Print (PyFormat.decimal_width 2 (1 + k) ++ ". " ++ s))
              [matrix_line]
         ++ [Print ("Ocurrio un error: '" ++ type_name (release_date numeric_date_movie)
                    ++ "' object has no attribute 'split'")])%list).
Proof.
  apply (X15_failure_after_partial_output (L := plain_lib)
           (answering "Matrix"
              (json_response 200
                 (PyDict [("results", PyList [matrix_item; numeric_date_item])])))
           sample_ui "Matrix" [the_prompt; HttpGet matrix_request]
           [matrix_movie] numeric_date_movie [] [matrix_line]
           (no_attribute (PyInt 1999) "split")).
  - reflexivity.
  - discriminate.
  - reflexivity.
  - repeat constructor.
  - reflexivity.
Defined.

(** X16 on a record without date and on one whose date is a number. *)
Lemma X16_witness :
  short_str (L := plain_lib) blank_movie = Ok (short_line (L := plain_lib) "s/f" blank_movie)
  /\ short_str (L := plain_lib) numeric_date_movie
     = Raise (no_attribute (PyInt 1999) "split")
  /\ truthy (release_date blank_movie) = false.
Proof.
  destruct (X16_dates_that_are_not_text (L := plain_lib) blank_movie) as (Hf & _ & Hin).
  destruct (X16_dates_that_are_not_text (L := plain_lib) numeric_date_movie)
    as (_ & Ht & _).
  split; [exact (Hf eq_refl)|]. split.
  - apply Ht; [reflexivity | discriminate].
  - apply Hin. left. reflexivity.
Defined.

(** X17 on the line [Matrix] and on a line of three spaces. *)
Lemma X17_witness :
  (exists req,
     In (HttpGet req)
        (snd (run (L := plain_lib) (answering "Matrix" (json_response 200 two_items))
                sample_ui [])))
  /\ ~ (exists req,
          In (HttpGet req)
             (snd (run (L := plain_lib) (answering "   " (json_response 200 two_items))
                     sample_ui []))).
Proof.
  split.
  - apply (proj2 (X17_request_iff_not_blank (L := plain_lib)
                    (answering "Matrix" (json_response 200 two_items)) sample_ui
                    "Matrix" eq_refl)).
    reflexivity.
  - intros H.
    apply (proj1 (X17_request_iff_not_blank (L := plain_lib)
                    (answering "   " (json_response 200 two_items)) sample_ui
                    "   " eq_refl)) in H.
    discriminate H.
Defined.

(** X18 on the answer that is not JSON. *)
Lemma X18_witness :
  run (L := plain_lib) (answering "Matrix" not_json) sample_ui []
  = (Ok tt, [the_prompt; HttpGet matrix_request;
             Print ("Ocurrio un error: " ++ json_error not_json)]).
Proof.
  apply (X18_body_not_json (L := plain_lib) (answering "Matrix" not_json) sample_ui
           "Matrix" not_json).
  - reflexivity.
  - discriminate.
  - reflexivity.
  - simpl. lia.
  - reflexivity.
Defined.

(** X19 in the world with an empty variable and a token in the file. *)
Lemma X19_witness :
  main (L := plain_lib) empty_variable
  = (ExitUncaught (mk_exn RuntimeError missing_token), []).
Proof.
  apply (X19_empty_variable_hides_dotenv (L := plain_lib) empty_variable).
  reflexivity.
Defined.

(** * The process *)

Section ProcessFacts.
Context {L : PyLib}.

(** On a console that accepts every line, the code with a fallible [print]
    does what the code above does. *)
Section Accepting.
Variable c : console.
Hypothesis writes_accepted : forall t line, stdout_write c t line = None.

Lemma print_to_accepted line t : print_to c line t = print line t.
Proof. unfold print_to. rewrite writes_accepted. reflexivity. Qed.

Lemma bind_ext {A B} (m m' : IO A) (k k' : A -> IO B) t :
  m t = m' t -> (forall a t', k a t' = k' a t') -> bind m k t = bind m' k' t.
Proof.
  intros Hm Hk. unfold bind. rewrite Hm.
  destruct (m' t) as [[a|e] t']; [apply Hk | reflexivity].
Qed.

Lemma print_movies_to_accepted movies : forall i t,
  print_movies_to c i movies t = print_movies i movies t.
Proof.
  induction movies as [|m movies IH]; intros i t; simpl; [reflexivity|].
  apply bind_ext; [reflexivity | intros s t1].
  apply bind_ext; [apply print_to_accepted | intros _ t2; apply IH].
Qed.

Lemma run_body_to_accepted w self t : run_body_to c w self t = run_body w self t.
Proof.
  unfold run_body_to, run_body.
  apply bind_ext; [reflexivity | intros title t1].
  destruct (negb _); [apply print_to_accepted|].
  apply bind_ext; [reflexivity | intros movies t2].
  destruct movies as [|m movies]; [apply print_to_accepted|].
  apply bind_ext; [apply print_to_accepted | intros _ t3].
  apply bind_ext; [apply print_movies_to_accepted | intros _ t4].
  apply print_to_accepted.
Qed.

Lemma run_to_accepted w self t : run_to c w self t = run w self t.
Proof.
  unfold run_to, run, try_except. rewrite run_body_to_accepted.
  destruct (run_body w self t) as [[u|e] t1]; [reflexivity|].
  unfold run_handlers_to, run_handlers.
  destruct (is_HTTPError _); [apply print_to_accepted|].
  destruct (is_Exception _); [apply print_to_accepted | reflexivity].
Qed.

End Accepting.

(** C7 (as amended): when [load_dotenv] returns, a non-empty token is
    found, standard output accepts every line and the flush at exit, and
    neither the keyboard nor the network raises anything outside
    [Exception], the process exits with success, whatever fails during
    the run being caught and printed: the last thing the run does is a
    [print]. *)
Theorem C7_exit_success_when_output_is_accepted c w tk :
  dotenv_failure c = None ->
  load_dotenv w !! "TMDB_BEARER_TOKEN" = Some tk ->
  tk <> "" ->
  (forall t line, stdout_write c t line = None) ->
  (forall t, exit_flush_fails c t = false) ->
  (forall e, stdin w = Raise e -> is_Exception (exn_class_of e) = true) ->
  (forall req e, http w req = Raise e -> is_Exception (exn_class_of e) = true) ->
  fst (main_to c w) = Succeeded
  /\ exists t line, snd (main_to c w) = (t ++ [Print line])%list.
Proof.
  intros Hd Htk Hne Hw Hf Hin Hh. unfold main_to, TMDBClient_init.
  rewrite Hd, or_else_missing, Htk. destruct tk as [|a tk]; [contradiction|].
  rewrite (run_to_accepted c Hw).
  match goal with |- context [run w ?ui []] =>
    destruct (run_returns w ui [] (run_body_catchable w Hin Hh ui)) as (t0 & line & ->)
  end.
  rewrite Hf. split; [reflexivity | eauto].
Qed.

(** X6: when the search is answered with a status from 400 to 599 and
    standard output refuses the write, the [print] of the [except] clause
    raises outside any [try]: the error is not reported and the process
    ends on the exception of the write, after the prompt and the one
    request. *)
Theorem X6_report_fails_on_broken_output c w tk title resp e :
  dotenv_failure c = None ->
  load_dotenv w !! "TMDB_BEARER_TOKEN" = Some tk ->
  tk <> "" ->
  stdin w = Ok title ->
  PyString.strip title <> "" ->
  (forall req, http w req = Ok resp) ->
  400 <= status_code resp < 600 ->
  (forall t line, stdout_write c t line = Some e) ->
  exists req,
    main_to c w = (Uncaught e, [Prompt "Ingresa el titulo a buscar: "; HttpGet req])
    /\ req_params req = [("query", PyStr title); ("include_adult", PyStr "false");
                         ("language", PyStr "es-MX"); ("page", PyInt 1)].
Proof.
  intros Hd Htk Hne Hin Hs Hh Hst Hw. unfold main_to, TMDBClient_init.
  rewrite Hd, or_else_missing, Htk. destruct tk as [|a tk]; [contradiction|].
  match goal with |- context [run_to c w ?ui []] => set (ui0 := ui) end.
  destruct (search_movies_status_error w (client (service ui0)) title 1 false
              [Prompt "Ingresa el titulo a buscar: "] resp (Hh _) Hst) as [kind E].
  exists (search_request (client (service ui0)) title 1 false).
  split; [|reflexivity].
  unfold run_to, try_except, run_body_to, input. unfold bind at 1, bind at 1, emit, lift.
  rewrite Hin, (strip_truthy _ Hs). unfold bind at 1, find_by_title, bind at 1.
  cbn [List.app] in E |- *. rewrite E.
  unfold run_handlers_to, print_to. cbn [exn_class_of is_HTTPError]. rewrite Hw.
  reflexivity.
Qed.

(** When every item gives a record, the loop returns those records. *)
Lemma collect_built items : forall built movies,
  Forall2 (fun it m => movie_of_item it = Ok m) items built ->
  collect items movies = Ok (movies ++ built)%list.
Proof.
  induction items as [|it items IH]; intros built movies H;
    inversion H as [|? m ? rest Hm Hrest]; subst; simpl.
  - rewrite app_nil_r. reflexivity.
  - rewrite Hm. simpl. rewrite (IH _ _ Hrest), <- app_assoc. reflexivity.
Qed.

(** C9 (as amended): every record [find_by_title] returns was built from
    a mapping item and its [id] is the value that item has under the key
    [id]: that integer when the value is an integer, [None] when the key
    is absent. The record is not immutable: [Movie] is not a frozen
    dataclass and an assignment to a field is accepted. The program itself
    assigns none: the lines a run prints are [short_str] of the records
    that [Movie(...)] built from the items, in order. *)
Theorem C9_id_and_mutation w self title :
  (forall page t t' d items movies,
     search_movies w (client self) title page false t = (Ok (PyDict d), t') ->
     dict_lookup "results" d = Some (PyList items) ->
     find_by_title w self title page t = (Ok movies, t') ->
     Forall2 (fun it m =>
                exists e, it = PyDict e
                  /\ id m = dict_get e "id" PyNone
                  /\ (forall n, dict_lookup "id" e = Some (PyInt n) -> id m = PyInt n)
                  /\ (dict_lookup "id" e = None -> id m = PyNone))
             items movies)
  /\ (forall field store m, Movie_setattr field store m = Ok (store m))
  /\ (forall ui t1 d item items built lines,
      service ui = self ->
      stdin w = Ok title ->
      PyString.strip title <> "" ->
      search_movies w (client self) title 1 false
        [Prompt "Ingresa el titulo a buscar: "] = (Ok (PyDict d), t1) ->
      dict_lookup "results" d = Some (PyList (item :: items)) ->
      Forall2 (fun it m => movie_of_item it = Ok m) (item :: items) built ->
      Forall2 (fun m s => short_str m = Ok s) built lines ->
      run w ui [] =
      (Ok tt,
       (t1 ++ Print (PyString.nl ++ "Resultados para '" ++ title ++ "':" ++ PyString.nl)
           :: imap (fun k s => Print (PyFormat.decimal_width 2 (1 + k) ++ ". " ++ s)) lines
           ++ [Print (PyString.nl ++ "(Primera pagina de resultados)")])%list)).
Proof.
  split; [|split].
  - intros page t t' d items movies. apply constructed_ids.
  - reflexivity.
  - intros ui t1 d item items built lines <- Hin Hne Hs Hr Hb Hl.
    assert (exists m rest, built = m :: rest) as (m & rest & ->)
      by (inversion Hb; eauto).
    assert (find_by_title w (service ui) title 1
              [Prompt "Ingresa el titulo a buscar: "] = (Ok (m :: rest), t1)) as Hf.
    { rewrite (find_by_title_payload _ _ _ _ _ _ _ Hs),
        (movies_of_payload_list _ _ Hr), (collect_built _ _ _ Hb). reflexivity. }
    unfold run, try_except. rewrite (run_body_searching _ _ _ _ Hin Hne).
    unfold bind at 1. cbn [List.app]. rewrite Hf.
    unfold bind at 1, print at 1, emit. unfold bind at 1.
    rewrite (print_movies_lines _ _ _ _ Hl). unfold print, emit.
    rewrite <- !app_assoc. reflexivity.
Qed.

End ProcessFacts.

(** * The process on concrete runs *)

(** C7 on a world with a token where the server answers 500 and the
    console accepts everything. *)
Lemma C7_witness :
  fst (main_to (L := plain_lib) accepting
         (answering "Matrix" (json_response 500 two_items))) = Succeeded
  /\ exists t line,
       snd (main_to (L := plain_lib) accepting
              (answering "Matrix" (json_response 500 two_items)))
       = (t ++ [Print line])%list.
Proof.
  apply (C7_exit_success_when_output_is_accepted (L := plain_lib) accepting
           (answering "Matrix" (json_response 500 two_items)) "secret").
  - reflexivity.
  - reflexivity.
  - discriminate.
  - reflexivity.
  - reflexivity.
  - intros e H. discriminate H.
  - intros req e H. discriminate H.
Defined.

(** C7 as stated fails in three ways. Without a token the constructor
    raises in [__main__], outside any [try], and the process ends on the
    uncaught [RuntimeError] with nothing printed. With a token, an answer
    500 and a broken pipe, the [print] of the [except] clause raises and
    the process ends on that [OSError], although every exception raised
    derives from [Exception]. With a console that cannot flush at exit,
    a run that returned normally still ends with a failure status. *)
Lemma C7_counterexample :
  main_to (L := plain_lib) accepting no_token
  = (Uncaught (mk_exn RuntimeError missing_token), [])
  /\ main_to (L := plain_lib) broken_pipe
       (answering "Matrix" (json_response 500 two_items))
     = (Uncaught (mk_exn OSError "[Errno 32] Broken pipe"),
        [the_prompt; HttpGet matrix_request])
  /\ is_Exception OSError = true
  /\ main_to (L := plain_lib) full_device
       (answering "Matrix" (json_response 200 (PyDict [])))
     = (FlushFailed,
        [the_prompt; HttpGet matrix_request; Print "No se encontraron resultados."])
  /\ fst (main_to (L := plain_lib) accepting no_token) <> Succeeded
  /\ fst (main_to (L := plain_lib) broken_pipe
            (answering "Matrix" (json_response 500 two_items))) <> Succeeded
  /\ fst (main_to (L := plain_lib) full_device
            (answering "Matrix" (json_response 200 (PyDict [])))) <> Succeeded.
Proof.
  repeat split; try reflexivity; discriminate.
Qed.

(** X6 on a 404 answer and a broken pipe. *)
Lemma X6_witness :
  exists req,
    main_to (L := plain_lib) broken_pipe
      (answering "Matrix" (json_response 404 two_items))
    = (Uncaught (mk_exn OSError "[Errno 32] Broken pipe"),
       [Prompt "Ingresa el titulo a buscar: "; HttpGet req])
    /\ req_params req = [("query", PyStr "Matrix"); ("include_adult", PyStr "false");
                         ("language", PyStr "es-MX"); ("page", PyInt 1)].
Proof.
  apply (X6_report_fails_on_broken_output (L := plain_lib) broken_pipe
           (answering "Matrix" (json_response 404 two_items)) "secret" "Matrix"
           (json_response 404 two_items)
           (mk_exn OSError "[Errno 32] Broken pipe")).
  - reflexivity.
  - reflexivity.
  - discriminate.
  - reflexivity.
  - discriminate.
  - reflexivity.
  - simpl. lia.
  - reflexivity.
Defined.

(** C9 on the payload with the Matrix item and an empty item: the ids are
    [1] and [None]; an assignment to the title of the Matrix record is
    accepted; and the run on the Matrix item alone prints the line of the
    record as it was built. *)
Lemma C9_witness :
  Forall2 (fun it m =>
             exists e, it = PyDict e
               /\ id m = dict_get e "id" PyNone
               /\ (forall n, dict_lookup "id" e = Some (PyInt n) -> id m = PyInt n)
               /\ (dict_lookup "id" e = None -> id m = PyNone))
          [matrix_item; PyDict []] [matrix_movie; blank_movie]
  /\ Movie_setattr "title" (with_title (PyStr "Neo")) matrix_movie
     = Ok (with_title (PyStr "Neo") matrix_movie)
  /\ run (L := plain_lib)
       (answering "Matrix"
          (json_response 200 (PyDict [("results", PyList [matrix_item])])))
       sample_ui []
     = (Ok tt,
        ([the_prompt; HttpGet matrix_request]
         ++ Print (PyString.nl ++ "Resultados para '" ++ "Matrix" ++ "':" ++ PyString.nl)
            :: imap (fun k s => Print (PyFormat.decimal_width 2 (1 + k) ++ ". " ++ s))
                 [matrix_line]
            ++ [Print (PyString.nl ++ "(Primera pagina de resultados)")])%list).
Proof.
  split; [|split].
  - apply (proj1 (C9_id_and_mutation (L := plain_lib)
                    (answering "Matrix" (json_response 200 two_items))
                    (service sample_ui) "Matrix")
             1 [] [HttpGet matrix_request]
             [("results", PyList [matrix_item; PyDict []])]
             [matrix_item; PyDict []] [matrix_movie; blank_movie]);
      reflexivity.
  - apply (proj1 (proj2 (C9_id_and_mutation (L := plain_lib)
                           (answering "Matrix" (json_response 200 two_items))
                           (service sample_ui) "Matrix"))).
  - apply (proj2 (proj2 (C9_id_and_mutation (L := plain_lib)
                           (answering "Matrix"
                              (json_response 200
                                 (PyDict [("results", PyList [matrix_item])])))
                           (service sample_ui) "Matrix"))
             sample_ui [the_prompt; HttpGet matrix_request]
             [("results", PyList [matrix_item])] matrix_item []
             [matrix_movie] [matrix_line]).
    + reflexivity.
    + reflexivity.
    + discriminate.
    + reflexivity.
    + reflexivity.
    + repeat constructor.
    + repeat constructor.
Defined.

(** C9 as stated fails on both counts. On [{"results": [{}]}] the item
    has no [id], a record is built all the same and its [id] is [None],
    not an integer. And that record is not immutable: assigning to its
    [title] is accepted and gives a record with another title. *)
Lemma C9_counterexample :
  let w := answering "Matrix" (json_response 200 (PyDict [("results", PyList [PyDict []])])) in
  find_by_title (L := plain_lib) w (service sample_ui) "Matrix" 1 []
  = (Ok [blank_movie], [HttpGet matrix_request])
  /\ id blank_movie = PyNone
  /\ (forall n, id blank_movie <> PyInt n)
  /\ Movie_frozen = false
  /\ Movie_setattr "title" (with_title (PyStr "changed")) blank_movie
     = Ok (with_title (PyStr "changed") blank_movie)
  /\ title (with_title (PyStr "changed") blank_movie) <> title blank_movie.
Proof.
  cbv zeta. repeat split; try reflexivity; discriminate.
Qed.
